(** * charlotte-api: the API-key authentication core ([src/auth.py])

    A shallow embedding of [src/auth.py] and the properties of its
    key generation, key validation, key lookup and of the [requires_auth]
    guard.

    Conventions of the embedding.
    - A Python [str] that has a UTF-8 encoding is a Rocq [string] holding
      the bytes of that encoding, so its [s.encode('utf-8')] is the list of
      bytes of [s] and the empty [str] is [""]; it is ASCII when each of its
      bytes is below 128.  The digests, the hashes on record, the texts
      printed and the header values are such strings.  A key submitted to
      [validate_api_key] or [user_for_api_key] is any [str]: the type [str]
      below adds the strings that hold a surrogate code point, which
      [encode] refuses.
    - A Python [bytes] is a [list byte]; a 32-bit word of SHA-256 is a [Z]
      with its wrap-around modulo [2^32] written out.
    - The library functions the module imports ([hashlib.sha256],
      [secrets.token_hex], [secrets.compare_digest], the request headers of
      the web framework and the [User.query] interface of the ORM) are
      modelled by what they compute, in the modules [Hashlib], [Secrets],
      [Flask] and [Model].
    - Effects (store queries, digests, prints, the call of the wrapped view)
      are recorded in a trace by a small exception-and-trace monad [M]. *)

From Stdlib Require Import ZArith List Bool Lia.
From Stdlib.Strings Require Import String Ascii Byte.
Import ListNotations.
Local Open Scope string_scope.
Local Open Scope list_scope.
Local Open Scope Z_scope.

(* ------------------------------------------------------------------ *)
(** ** Bytes and their hexadecimal form ([bytes.hex()], [hexdigest()]) *)

Module Bytes.

Definition to_Z (b : byte) : Z := Z.of_N (Byte.to_N b).

(** The byte whose value is [z mod 256]. *)
Definition of_Z (z : Z) : byte :=
  match Byte.of_N (Z.to_N (z mod 256)) with
  | Some b => b
  | None => x00
  end.

(** The bytes of a string that is held as its UTF-8 encoding. *)
Definition encode_utf8 (s : string) : list byte := list_byte_of_string s.

Definition hexdigits : string := "0123456789abcdef".

(** The lowercase hexadecimal digit of a nibble. *)
Definition hexdigit (n : Z) : ascii :=
  match String.get (Z.to_nat (n mod 16)) hexdigits with
  | Some c => c
  | None => "0"%char
  end.

(** [bytes.hex()]: two lowercase digits per byte, high nibble first. *)
Fixpoint hex (bs : list byte) : string :=
  match bs with
  | [] => EmptyString
  | b :: bs' =>
      String (hexdigit (Z.shiftr (to_Z b) 4))
             (String (hexdigit (Z.land (to_Z b) 15)) (hex bs'))
  end.

(** One of [0-9a-f]. *)
Definition is_lower_hex (c : ascii) : bool :=
  let n := Z.of_N (N_of_ascii c) in
  ((48 <=? n) && (n <=? 57)) || ((97 <=? n) && (n <=? 102)).

Fixpoint string_forallb (p : ascii -> bool) (s : string) : bool :=
  match s with
  | EmptyString => true
  | String c s' => p c && string_forallb p s'
  end.

Definition is_ascii_char (c : ascii) : bool := Z.of_N (N_of_ascii c) <? 128.

(** [str.isascii()]. *)
Definition isascii (s : string) : bool := string_forallb is_ascii_char s.

End Bytes.

(* ------------------------------------------------------------------ *)
(** ** Strings ([str]) *)

(** A surrogate code point, U+D800 to U+DFFF. *)
Definition is_surrogate (code_point : Z) : bool :=
  (0xD800 <=? code_point) && (code_point <=? 0xDFFF).

(** A string that holds a surrogate code point, by its code points. *)
Record surrogated : Type := MkSurrogated
  { code_points : list Z;
    holds_surrogate : existsb is_surrogate code_points = true }.

(** A Python [str]: one that has a UTF-8 encoding, by the bytes of that
    encoding, or one that holds a surrogate code point and has none. *)
Inductive str : Type :=
| Utf8 (encoded : string)
| Surrogated (s : surrogated).

(* ------------------------------------------------------------------ *)
(** ** [hashlib.sha256] (FIPS 180-4) *)

Module Hashlib.

Definition w32 (x : Z) : Z := x mod 2 ^ 32.
Definition add32 (x y : Z) : Z := w32 (x + y).
Definition rotr (n x : Z) : Z :=
  Z.lor (Z.shiftr x n) (w32 (Z.shiftl x (32 - n))).
Definition shr (n x : Z) : Z := Z.shiftr x n.
Definition not32 (x : Z) : Z := Z.lxor x (2 ^ 32 - 1).

Definition Ch (x y z : Z) : Z := Z.lxor (Z.land x y) (Z.land (not32 x) z).
Definition Maj (x y z : Z) : Z :=
  Z.lxor (Z.lxor (Z.land x y) (Z.land x z)) (Z.land y z).
Definition Sigma0 (x : Z) : Z :=
  Z.lxor (Z.lxor (rotr 2 x) (rotr 13 x)) (rotr 22 x).
Definition Sigma1 (x : Z) : Z :=
  Z.lxor (Z.lxor (rotr 6 x) (rotr 11 x)) (rotr 25 x).
Definition sigma0 (x : Z) : Z :=
  Z.lxor (Z.lxor (rotr 7 x) (rotr 18 x)) (shr 3 x).
Definition sigma1 (x : Z) : Z :=
  Z.lxor (Z.lxor (rotr 17 x) (rotr 19 x)) (shr 10 x).

(** The primes below [n], by trial division. *)
Definition is_prime (n : nat) : bool :=
  forallb (fun d => negb (Nat.eqb (Nat.modulo n d) 0)) (seq 2 (n - 2)).

Definition primes_below (n : nat) : list Z :=
  map Z.of_nat (filter is_prime (seq 2 (n - 2))).

(** The integer cube root, one bit at a time from bit [k - 1] down. *)
Fixpoint cbrt_bits (k : nat) (r n : Z) : Z :=
  match k with
  | O => r
  | S k' =>
      let r' := r + 2 ^ Z.of_nat k' in
      if r' * r' * r' <=? n then cbrt_bits k' r' n else cbrt_bits k' r n
  end.

(** The first 32 bits of the fractional part of the cube root, and of the
    square root, of [p]. *)
Definition frac_cbrt (p : Z) : Z := w32 (cbrt_bits 36 0 (p * 2 ^ 96)).
Definition frac_sqrt (p : Z) : Z := w32 (Z.sqrt (p * 2 ^ 64)).

(** The round constants: from the cube roots of the first 64 primes. *)
Definition K : list Z := Eval vm_compute in map frac_cbrt (primes_below 312).

(** The eight working variables, and the hash value between blocks. *)
Record state : Type := State
  { ha : Z; hb : Z; hc : Z; hd : Z; he : Z; hf : Z; hg : Z; hh : Z }.

(** The initial hash value: from the square roots of the first 8 primes. *)
Definition H0 : state :=
  Eval vm_compute in
  let h := fun i => frac_sqrt (nth i (primes_below 20) 0) in
  State (h 0%nat) (h 1%nat) (h 2%nat) (h 3%nat) (h 4%nat) (h 5%nat) (h 6%nat) (h 7%nat).

(** Padding: a one bit, zeros up to 56 modulo 64 bytes, then the length
    in bits as a 64-bit big-endian integer. *)
Definition be_bytes (n : nat) (x : Z) : list byte :=
  map (fun i => Bytes.of_Z (Z.shiftr x (8 * Z.of_nat (n - 1 - i)))) (seq 0 n).

Definition pad (msg : list byte) : list byte :=
  let len := Z.of_nat (List.length msg) in
  let zeros := Z.to_nat ((55 - len) mod 64) in
  msg ++ x80 :: repeat x00 zeros ++ be_bytes 8 (8 * len).

(** Big-endian 32-bit words of a byte string. *)
Fixpoint words (bs : list byte) : list Z :=
  match bs with
  | b0 :: b1 :: b2 :: b3 :: rest =>
      (Bytes.to_Z b0 * 2 ^ 24 + Bytes.to_Z b1 * 2 ^ 16
       + Bytes.to_Z b2 * 2 ^ 8 + Bytes.to_Z b3) :: words rest
  | _ => []
  end.

Fixpoint blocks (n : nat) (ws : list Z) : list (list Z) :=
  match n with
  | O => []
  | S n' => firstn 16 ws :: blocks n' (skipn 16 ws)
  end.

(** The message schedule, newest word first: [extend k w] adds [k] words
    to the reversed block [w]. *)
Fixpoint extend (k : nat) (w : list Z) : list Z :=
  match k with
  | O => w
  | S k' =>
      let x := add32 (add32 (add32 (sigma1 (nth 1 w 0)) (nth 6 w 0))
                            (sigma0 (nth 14 w 0))) (nth 15 w 0) in
      extend k' (x :: w)
  end.

Definition schedule (block : list Z) : list Z := rev (extend 48 (rev block)).

Definition round (s : state) (kw : Z * Z) : state :=
  let (k, w) := kw in
  let t1 := add32 (add32 (add32 (add32 (hh s) (Sigma1 (he s)))
                                (Ch (he s) (hf s) (hg s))) k) w in
  let t2 := add32 (Sigma0 (ha s)) (Maj (ha s) (hb s) (hc s)) in
  State (add32 t1 t2) (ha s) (hb s) (hc s) (add32 (hd s) t1) (he s) (hf s) (hg s).

Definition compress (h : state) (block : list Z) : state :=
  let s := fold_left round (combine K (schedule block)) h in
  State (add32 (ha h) (ha s)) (add32 (hb h) (hb s))
        (add32 (hc h) (hc s)) (add32 (hd h) (hd s))
        (add32 (he h) (he s)) (add32 (hf h) (hf s))
        (add32 (hg h) (hg s)) (add32 (hh h) (hh s)).

Definition sha256_state (msg : list byte) : state :=
  let ws := words (pad msg) in
  fold_left compress (blocks (Nat.div (List.length ws) 16) ws) H0.

(** [sha256(msg).digest()]: the eight words, big-endian. *)
Definition digest (msg : list byte) : list byte :=
  let s := sha256_state msg in
  be_bytes 4 (ha s) ++ be_bytes 4 (hb s) ++ be_bytes 4 (hc s)
  ++ be_bytes 4 (hd s) ++ be_bytes 4 (he s) ++ be_bytes 4 (hf s)
  ++ be_bytes 4 (hg s) ++ be_bytes 4 (hh s).

(** [sha256(msg).hexdigest()]. *)
Definition hexdigest (msg : list byte) : string := Bytes.hex (digest msg).

End Hashlib.

(* ------------------------------------------------------------------ *)
(** ** The user table ([src.model.User]) *)

Module Model.

(** Modelled from the spec: the [User] record of [src/model.py], which is
    not part of the sources at hand.  A principal has a stable identifier
    and the hash of its currently valid key, absent when no key was
    issued. *)
Record User : Type := MkUser
  { id : Z; name : string; api_key : option string }.

(** The user-record store: either its rows, in the order the database
    answers a query, or a store whose every lookup raises (a connectivity
    fault, with the text of the error). *)
Inductive Store : Type :=
| Connected (rows : list User)
| Faulty (error : string).

Definition has_id (user_id : Z) (u : User) : bool := id u =? user_id.

Definition has_key_hash (key_hash : string) (u : User) : bool :=
  match api_key u with
  | Some h => String.eqb h key_hash
  | None => false
  end.

End Model.

(* ------------------------------------------------------------------ *)
(** ** Request headers ([flask.request.headers]) *)

Module Flask.

Definition lower_char (c : ascii) : ascii :=
  let n := N_of_ascii c in
  if ((65 <=? n) && (n <=? 90))%N then ascii_of_N (n + 32) else c.

Fixpoint lower (s : string) : string :=
  match s with
  | EmptyString => EmptyString
  | String c s' => String (lower_char c) (lower s')
  end.

(** Header names compare without regard to case. *)
Definition same_name (a b : string) : bool := String.eqb (lower a) (lower b).

Definition Headers : Type := list (string * string).

(** [headers.get(name)]: the first value under that name, or [None]. *)
Fixpoint get (name : string) (h : Headers) : option string :=
  match h with
  | [] => None
  | (k, v) :: h' => if same_name name k then Some v else get name h'
  end.

(** [name in headers]. *)
Definition contains (name : string) (h : Headers) : bool :=
  match get name h with
  | Some _ => true
  | None => false
  end.

Record Request : Type := MkRequest { headers : Headers }.

End Flask.

(* ------------------------------------------------------------------ *)
(** ** Exceptions, traces and the monad of the embedding *)

(** [class AuthError(Exception)], with its two attributes. *)
Record AuthError : Type := MkAuthError
  { message : string; status_code : Z }.

(** [AuthError.__init__(self, message, status_code=401)]: [None] stands for
    a call that leaves the keyword out. *)
Definition AuthError_init (message : string) (status_code : option Z) : AuthError :=
  {| message := message;
     status_code := match status_code with Some c => c | None => 401 end |}.

(** The exceptions that occur; all of them derive from [Exception]. *)
Inductive exn : Type :=
| ExcAuthError (e : AuthError)
| AttributeError (msg : string)
| TypeError (msg : string)
| UnicodeEncodeError (msg : string)
| StoreError (msg : string).

Inductive result (A : Type) : Type :=
| Ok (a : A)
| Raise (e : exn).
Arguments Ok {A} a.
Arguments Raise {A} e.

(** What a run does, in order.  [Hashed], [JwtTried] and [ViewCalled] mark
    the calls of [sha256], [user_from_jwt] and of the wrapped view; the
    events of the view's body are kept inside its [ViewCalled]. *)
Unset Elimination Schemes.
Inductive event : Type :=
| Hashed (data : list byte)
| QueryGet (user_id : Z)
| QueryFilterBy (key_hash : string)
| Printed (text : string)
| JwtTried (authorization_header : option string)
| ViewCalled (current_user : Model.User) (body : list event).
Set Elimination Schemes.

Record Env : Type := MkEnv
  { store : Model.Store; request : Flask.Request }.

Definition M (A : Type) : Type := Env -> list event * result A.

Definition ret {A} (a : A) : M A := fun _ => ([], Ok a).

Definition raise {A} (e : exn) : M A := fun _ => ([], Raise e).

Definition bind {A B} (m : M A) (k : A -> M B) : M B :=
  fun env =>
    match m env with
    | (t, Ok a) => let (t', r) := k a env in (t ++ t', r)
    | (t, Raise e) => (t, Raise e)
    end.

Definition tell (ev : event) : M unit := fun _ => ([ev], Ok tt).

Definition ask : M Env := fun env => ([], Ok env).

(** [try: m except Exception as e: handler e]. *)
Definition try_except {A} (m : M A) (handler : exn -> M A) : M A :=
  fun env =>
    match m env with
    | (t, Ok a) => (t, Ok a)
    | (t, Raise e) => let (t', r) := handler e env in (t ++ t', r)
    end.

Notation "x <- m ;; k" := (bind m (fun x => k))
  (at level 61, m at next level, right associativity).
Notation "m ;;; k" := (bind m (fun _ => k))
  (at level 61, right associativity).

Definition print (text : string) : M unit := tell (Printed text).

(** [User.query.get(user_id)]: the row with that primary key, or [None]. *)
Definition User_query_get (user_id : Z) : M (option Model.User) :=
  env <- ask ;;
  tell (QueryGet user_id) ;;;
  match store env with
  | Model.Connected rows => ret (find (Model.has_id user_id) rows)
  | Model.Faulty error => raise (StoreError error)
  end.

(** [User.query.filter_by(api_key=key_hash).first()]. *)
Definition User_query_filter_by_first (key_hash : string) : M (option Model.User) :=
  env <- ask ;;
  tell (QueryFilterBy key_hash) ;;;
  match store env with
  | Model.Connected rows => ret (find (Model.has_key_hash key_hash) rows)
  | Model.Faulty error => raise (StoreError error)
  end.

(** [user.api_key], where [user] may be [None]. *)
Definition getattr_api_key (user : option Model.User) : M (option string) :=
  match user with
  | Some u => ret (Model.api_key u)
  | None => raise (AttributeError "'NoneType' object has no attribute 'api_key'")
  end.

(** [s.encode('utf-8')]: the bytes of the encoding, or a
    [UnicodeEncodeError] for a string that holds a surrogate (its message
    without the character and the position that Python adds). *)
Definition str_encode_utf8 (s : str) : M (list byte) :=
  match s with
  | Utf8 encoded => ret (Bytes.encode_utf8 encoded)
  | Surrogated _ =>
      raise (UnicodeEncodeError "'utf-8' codec can't encode: surrogates not allowed")
  end.

(** [sha256(data).hexdigest()]. *)
Definition sha256_hexdigest (data : list byte) : M string :=
  tell (Hashed data) ;;; ret (Hashlib.hexdigest data).

(* ------------------------------------------------------------------ *)
(** ** [secrets] *)

Module Secrets.

(** [token_bytes(nbytes)]: the next [nbytes] bytes of the system's
    randomness, given as the stream [urandom]. *)
Definition token_bytes (nbytes : nat) (urandom : nat -> byte) : list byte :=
  map urandom (seq 0 nbytes).

(** [token_hex(nbytes)]. *)
Definition token_hex (nbytes : nat) (urandom : nat -> byte) : string :=
  Bytes.hex (token_bytes nbytes urandom).

(** [compare_digest(a, b)] for a [str] [a]: a [TypeError] unless [b] is a
    [str] too and both are ASCII, else whether they are equal. *)
Definition compare_digest (a : string) (b : option string) : M bool :=
  match b with
  | None =>
      raise (TypeError "unsupported operand types(s) or combination of types: 'str' and 'NoneType'")
  | Some b' =>
      if Bytes.isascii a && Bytes.isascii b'
      then ret (String.eqb a b')
      else raise (TypeError "comparing strings with non-ASCII characters is not supported")
  end.

End Secrets.

(* ------------------------------------------------------------------ *)
(** ** [src/auth.py] *)

Record api_pair : Type := MkApiPair
  { api_key : string; hashed_key : string }.

(** [generate_api_key()], on the randomness it draws. *)
Definition generate_api_key (urandom : nat -> byte) : api_pair :=
  let api_key := Secrets.token_hex 32 urandom in
  let hash_value := Hashlib.hexdigest (Bytes.encode_utf8 api_key) in
  MkApiPair api_key hash_value.

(** [not user_id] for an [int] or [None]. *)
Definition not_int (x : option Z) : bool :=
  match x with
  | Some n => n =? 0
  | None => true
  end.

(** [not api_key] for a [str] or [None]. *)
Definition not_str (x : option str) : bool :=
  match x with
  | Some (Utf8 s) => String.eqb s ""
  | Some (Surrogated _) => false
  | None => true
  end.

(** [validate_api_key(user_id, api_key)].  The [try] block yields the hash
    on record; its handler prints and makes the function return [False],
    which is the [None] of the block here. *)
Definition validate_api_key (user_id : option Z) (api_key : option str) : M bool :=
  match user_id, api_key with
  | Some uid, Some key =>
      if not_int user_id || not_str api_key then ret false
      else
        encoded <- str_encode_utf8 key ;;
        submitted_hash <- sha256_hexdigest encoded ;;
        fetched <- try_except
                     (user <- User_query_get uid ;;
                      user_hash <- getattr_api_key user ;;
                      ret (Some user_hash))
                     (fun e => print "User fetching failed." ;;; ret None) ;;
        match fetched with
        | None => ret false
        | Some user_hash => Secrets.compare_digest submitted_hash user_hash
        end
  | _, _ => ret false
  end.

(** [user_for_api_key(api_key)]. *)
Definition user_for_api_key (api_key : option str) : M (option Model.User) :=
  match api_key with
  | Some key =>
      if negb (not_str api_key) then
        encoded <- str_encode_utf8 key ;;
        key_hash <- sha256_hexdigest encoded ;;
        user <- User_query_filter_by_first key_hash ;;
        ret user
      else ret None
  | None => ret None
  end.

(** [user_from_jwt(authorization_header)]. *)
Definition user_from_jwt (authorization_header : option string) : M (option Model.User) :=
  tell (JwtTried authorization_header) ;;; ret None.

Section Guard.

(** The wrapped view: its positional and keyword arguments, and what it
    does once [current_user] is bound. *)
Variables Args Resp : Type.
Variable f : Args -> Model.User -> M Resp.

(** The call of [f] on the arguments received, with [current_user=user]. *)
Definition call_view (args : Args) (user : Model.User) : M Resp :=
  fun env => let (t, r) := f args user env in ([ViewCalled user t], r).

(** The value of a header is a string that the server decoded from
    latin-1: it has a UTF-8 encoding. *)
Definition decorated_function (args : Args) : M Resp :=
  env <- ask ;;
  let headers := Flask.headers (request env) in
  let user := None in
  user <- (if Flask.contains "Authorization" headers
           then user_from_jwt (Flask.get "Authorization" headers)
           else ret user) ;;
  user <- (if Flask.contains "x-api-key" headers
           then
             let api_key := option_map Utf8 (Flask.get "x-api-key" headers) in
             user_for_api_key api_key
           else ret user) ;;
  match user with
  | None =>
      raise (ExcAuthError
               (AuthError_init "Authorization is required to access this resource" None))
  | Some u => call_view args u
  end.

Definition requires_auth : Args -> M Resp := decorated_function.

End Guard.

Arguments call_view {Args Resp} f args user _.
Arguments decorated_function {Args Resp} f args _.
Arguments requires_auth {Args Resp} f args _.

(* ------------------------------------------------------------------ *)
(** ** Vocabulary of the statements, and fixtures *)

Arguments Hashlib.hexdigest : simpl never.
Arguments Bytes.encode_utf8 : simpl never.
Arguments Bytes.isascii : simpl never.

(** The digest the code computes for a submitted key. *)
Definition key_digest (key : string) : string :=
  Hashlib.hexdigest (Bytes.encode_utf8 key).

(** The calls of the wrapped view in a trace, with what each body did. *)
Fixpoint view_calls (t : list event) : list (Model.User * list event) :=
  match t with
  | [] => []
  | ViewCalled u body :: t' => (u, body) :: view_calls t'
  | _ :: t' => view_calls t'
  end.

(** Unfolds the monad and evaluates a run as far as its inputs are known. *)
Ltac run :=
  repeat (unfold bind, try_except, ask, tell, ret, raise, print,
            str_encode_utf8, sha256_hexdigest, User_query_get,
            User_query_filter_by_first,
            getattr_api_key, Secrets.compare_digest, user_from_jwt;
          cbn).

Definition zeros : nat -> byte := fun _ => x00.

Definition seed_pair : api_pair := generate_api_key zeros.

Definition seed_user : Model.User :=
  Model.MkUser 1 "Matt" (Some (hashed_key seed_pair)).

Definition seed_env (headers : Flask.Headers) : Env :=
  MkEnv (Model.Connected [seed_user]) (Flask.MkRequest headers).

Definition down_env (headers : Flask.Headers) : Env :=
  MkEnv (Model.Faulty "connection refused") (Flask.MkRequest headers).

(** A view in the manner of [/api/user]: answers with the current user's
    identifier. *)
Definition user_view (_ : unit) (current_user : Model.User) : M Z :=
  print (Model.name current_user) ;;; ret (Model.id current_user).

Definition absent_or_zero (user_id : option Z) : Prop :=
  user_id = None \/ user_id = Some 0.

Definition absent_or_empty (api_key : option str) : Prop :=
  api_key = None \/ api_key = Some (Utf8 "").

(** The store maps user [u] to the hash [h]: [u] is the row on record under
    its identifier, and the row that holds [h]. *)
Definition store_maps (rows : list Model.User) (u : Model.User) (h : string) : Prop :=
  In u rows
  /\ Model.api_key u = Some h
  /\ (forall v, In v rows -> Model.id v = Model.id u -> v = u)
  /\ (forall v, In v rows -> Model.api_key v = Some h -> v = u).

Definition authorization_required : AuthError :=
  {| message := "Authorization is required to access this resource";
     status_code := 401 |}.

Definition is_jwt_event (ev : event) : bool :=
  match ev with JwtTried _ => true | _ => false end.

Definition is_key_event (ev : event) : bool :=
  match ev with Hashed _ | QueryFilterBy _ => true | _ => false end.

Definition is_view_event (ev : event) : bool :=
  match ev with ViewCalled _ _ => true | _ => false end.

(** The trace of the JWT step and the run of the key step of the guard. *)
Definition jwt_trace (hs : Flask.Headers) : list event :=
  if Flask.contains "Authorization" hs
  then [JwtTried (Flask.get "Authorization" hs)]
  else [].

Definition key_step (env : Env) : list event * result (option Model.User) :=
  let hs := Flask.headers (request env) in
  if Flask.contains "x-api-key" hs
  then user_for_api_key (option_map Utf8 (Flask.get "x-api-key" hs)) env
  else ([], Ok None).

(** The value of a hexadecimal digit, and [bytes.fromhex] on a string of
    digit pairs: the inverse of [Bytes.hex], used to tell keys apart. *)
Definition unhexdigit (c : ascii) : Z :=
  let n := Z.of_N (N_of_ascii c) in
  if n <? 58 then n - 48 else n - 87.

Fixpoint unhex (s : string) : list byte :=
  match s with
  | String hi (String lo s') =>
      Bytes.of_Z (16 * unhexdigit hi + unhexdigit lo) :: unhex s'
  | _ => []
  end.

(** The string of the one code point U+D800. *)
Definition lone_surrogate : str :=
  Surrogated (MkSurrogated [0xD800] eq_refl).

(** A stream of randomness that is zero except at one position. *)
Definition zeros_but (i : nat) (b : byte) : nat -> byte :=
  fun j => if Nat.eqb i j then b else x00.

(* ------------------------------------------------------------------ *)
(** ** Checks of the library models on known values *)

Example sha256_abc :
  Hashlib.hexdigest (Bytes.encode_utf8 "abc")
  = "ba7816bf8f01cfea414140de5dae2223b00361a396177a9cb410ff61f20015ad".
Proof. vm_compute. reflexivity. Qed.

Example sha256_empty :
  Hashlib.hexdigest []
  = "e3b0c44298fc1c149afbf4c8996fb92427ae41e4649b934ca495991b7852b855".
Proof. vm_compute. reflexivity. Qed.

Example sha256_two_blocks :
  Hashlib.hexdigest
    (Bytes.encode_utf8 "abcdbcdecdefdefgefghfghighijhijkijkljklmklmnlmnomnopnopq")
  = "248d6a61d20638b8e5c026930c3e6039a33ce45964ff2167f6ecedd419db06c1".
Proof. vm_compute. reflexivity. Qed.

Example sha256_constants :
  List.length Hashlib.K = 64%nat
  /\ nth 0 Hashlib.K 0 = 0x428a2f98 /\ nth 63 Hashlib.K 0 = 0xc67178f2
  /\ Hashlib.ha Hashlib.H0 = 0x6a09e667 /\ Hashlib.hh Hashlib.H0 = 0x5be0cd19.
Proof. repeat split. Qed.

Example hex_bytes : Bytes.hex [x00; x0f; xa5; xff] = "000fa5ff".
Proof. reflexivity. Qed.

Example headers_ignore_case :
  Flask.get "x-api-key" [("Accept", "*/*"); ("X-API-Key", "k")] = Some "k".
Proof. reflexivity. Qed.

(* ------------------------------------------------------------------ *)
(** ** Hexadecimal strings *)

Lemma hex_length (bs : list byte) :
  String.length (Bytes.hex bs) = (2 * List.length bs)%nat.
Proof.
  induction bs as [|b bs IH]; simpl.
  - reflexivity.
  - rewrite IH. lia.
Qed.

Lemma hex_pair_lower (b : byte) :
  Bytes.is_lower_hex (Bytes.hexdigit (Z.shiftr (Bytes.to_Z b) 4)) = true
  /\ Bytes.is_lower_hex (Bytes.hexdigit (Z.land (Bytes.to_Z b) 15)) = true.
Proof. destruct b; split; reflexivity. Qed.

Lemma hex_lower (bs : list byte) :
  Bytes.string_forallb Bytes.is_lower_hex (Bytes.hex bs) = true.
Proof.
  induction bs as [|b bs IH].
  - reflexivity.
  - destruct (hex_pair_lower b) as [Hhi Hlo].
    change (Bytes.hex (b :: bs))
      with (String (Bytes.hexdigit (Z.shiftr (Bytes.to_Z b) 4))
              (String (Bytes.hexdigit (Z.land (Bytes.to_Z b) 15)) (Bytes.hex bs))).
    cbn [Bytes.string_forallb]. rewrite Hhi, Hlo, IH. reflexivity.
Qed.

Lemma lower_hex_is_ascii (c : ascii) :
  Bytes.is_lower_hex c = true -> Bytes.is_ascii_char c = true.
Proof.
  unfold Bytes.is_lower_hex, Bytes.is_ascii_char. intros H.
  apply Z.ltb_lt.
  apply orb_true_iff in H.
  destruct H as [H|H]; apply andb_true_iff in H; destruct H as [_ H];
    apply Z.leb_le in H; lia.
Qed.

Lemma all_lower_hex_isascii (s : string) :
  Bytes.string_forallb Bytes.is_lower_hex s = true -> Bytes.isascii s = true.
Proof.
  unfold Bytes.isascii.
  induction s as [|c s IH]; cbn [Bytes.string_forallb]; intros H.
  - reflexivity.
  - apply andb_true_iff in H. destruct H as [Hc Hs].
    rewrite (lower_hex_is_ascii c Hc), (IH Hs). reflexivity.
Qed.

Lemma be_bytes_length (n : nat) (x : Z) : List.length (Hashlib.be_bytes n x) = n.
Proof. unfold Hashlib.be_bytes. rewrite length_map, length_seq. reflexivity. Qed.

Lemma digest_length (msg : list byte) : List.length (Hashlib.digest msg) = 32%nat.
Proof.
  unfold Hashlib.digest. cbv zeta.
  repeat rewrite length_app. repeat rewrite be_bytes_length. reflexivity.
Qed.

Lemma hexdigest_length (msg : list byte) :
  String.length (Hashlib.hexdigest msg) = 64%nat.
Proof. unfold Hashlib.hexdigest. rewrite hex_length, digest_length. reflexivity. Qed.

Lemma hexdigest_lower (msg : list byte) :
  Bytes.string_forallb Bytes.is_lower_hex (Hashlib.hexdigest msg) = true.
Proof. apply hex_lower. Qed.

Lemma hexdigest_isascii (msg : list byte) :
  Bytes.isascii (Hashlib.hexdigest msg) = true.
Proof. apply all_lower_hex_isascii, hexdigest_lower. Qed.

Lemma token_bytes_length (n : nat) (urandom : nat -> byte) :
  List.length (Secrets.token_bytes n urandom) = n.
Proof. unfold Secrets.token_bytes. rewrite length_map, length_seq. reflexivity. Qed.

Lemma token_hex_length (n : nat) (urandom : nat -> byte) :
  String.length (Secrets.token_hex n urandom) = (2 * n)%nat.
Proof. unfold Secrets.token_hex. rewrite hex_length, token_bytes_length. reflexivity. Qed.

(* ------------------------------------------------------------------ *)
(** ** Key generation *)

(** C10.  Whatever randomness it draws, [generate_api_key] returns a key
    that is the hexadecimal form of 32 random bytes, hence 64 characters
    among [0-9a-f], and a hash that is the SHA-256 hexadecimal digest of
    the UTF-8 encoding of that key, again 64 characters among [0-9a-f]. *)
Theorem generate_api_key_format (urandom : nat -> byte) :
  let pair := generate_api_key urandom in
  api_key pair = Bytes.hex (Secrets.token_bytes 32 urandom)
  /\ List.length (Secrets.token_bytes 32 urandom) = 32%nat
  /\ String.length (api_key pair) = 64%nat
  /\ Bytes.string_forallb Bytes.is_lower_hex (api_key pair) = true
  /\ String.length (hashed_key pair) = 64%nat
  /\ Bytes.string_forallb Bytes.is_lower_hex (hashed_key pair) = true
  /\ hashed_key pair = Hashlib.hexdigest (Bytes.encode_utf8 (api_key pair)).
Proof.
  cbv zeta. unfold generate_api_key; cbn [api_key hashed_key].
  refine (conj eq_refl (conj _ (conj _ (conj _ (conj _ (conj _ eq_refl)))))).
  - apply token_bytes_length.
  - apply token_hex_length.
  - apply hex_lower.
  - apply hexdigest_length.
  - apply hexdigest_lower.
Qed.

(* ------------------------------------------------------------------ *)
(** ** Runs of the two key checks *)

Lemma not_str_nonempty (key : string) : key <> "" -> not_str (Some (Utf8 key)) = false.
Proof. destruct key; [congruence | reflexivity]. Qed.

Lemma not_int_nonzero (uid : Z) : uid <> 0 -> not_int (Some uid) = false.
Proof. intros H. cbn. apply Z.eqb_neq. exact H. Qed.

Lemma user_for_api_key_connected (key : string) rows req :
  key <> "" ->
  user_for_api_key (Some (Utf8 key)) (MkEnv (Model.Connected rows) req)
  = ([Hashed (Bytes.encode_utf8 key); QueryFilterBy (key_digest key)],
     Ok (find (Model.has_key_hash (key_digest key)) rows)).
Proof.
  intros Hkey. unfold user_for_api_key.
  rewrite (not_str_nonempty key Hkey). reflexivity.
Qed.

Lemma user_for_api_key_faulty (key : string) error req :
  key <> "" ->
  user_for_api_key (Some (Utf8 key)) (MkEnv (Model.Faulty error) req)
  = ([Hashed (Bytes.encode_utf8 key); QueryFilterBy (key_digest key)],
     Raise (StoreError error)).
Proof.
  intros Hkey. unfold user_for_api_key.
  rewrite (not_str_nonempty key Hkey). reflexivity.
Qed.

Lemma validate_api_key_faulty (uid : Z) (key : string) error req :
  uid <> 0 -> key <> "" ->
  validate_api_key (Some uid) (Some (Utf8 key)) (MkEnv (Model.Faulty error) req)
  = ([Hashed (Bytes.encode_utf8 key); QueryGet uid; Printed "User fetching failed."],
     Ok false).
Proof.
  intros Huid Hkey. unfold validate_api_key.
  rewrite (not_int_nonzero uid Huid), (not_str_nonempty key Hkey). reflexivity.
Qed.

Lemma validate_api_key_unknown (uid : Z) (key : string) rows req :
  uid <> 0 -> key <> "" ->
  find (Model.has_id uid) rows = None ->
  validate_api_key (Some uid) (Some (Utf8 key)) (MkEnv (Model.Connected rows) req)
  = ([Hashed (Bytes.encode_utf8 key); QueryGet uid; Printed "User fetching failed."],
     Ok false).
Proof.
  intros Huid Hkey Hfind. unfold validate_api_key.
  rewrite (not_int_nonzero uid Huid), (not_str_nonempty key Hkey).
  run. rewrite Hfind. reflexivity.
Qed.

Lemma validate_api_key_known (uid : Z) (key : string) rows req u h :
  uid <> 0 -> key <> "" ->
  find (Model.has_id uid) rows = Some u ->
  Model.api_key u = Some h ->
  Bytes.isascii h = true ->
  validate_api_key (Some uid) (Some (Utf8 key)) (MkEnv (Model.Connected rows) req)
  = ([Hashed (Bytes.encode_utf8 key); QueryGet uid],
     Ok (String.eqb (key_digest key) h)).
Proof.
  intros Huid Hkey Hfind Hhash Hascii. unfold validate_api_key.
  rewrite (not_int_nonzero uid Huid), (not_str_nonempty key Hkey).
  run. rewrite Hfind. run. rewrite Hhash.
  rewrite hexdigest_isascii, Hascii. reflexivity.
Qed.

(** A user on record without a key hash: the comparison, which stands
    after the [try] block, raises. *)
Lemma validate_api_key_null_hash (uid : Z) (key : string) rows req u :
  uid <> 0 -> key <> "" ->
  find (Model.has_id uid) rows = Some u ->
  Model.api_key u = None ->
  exists msg,
    validate_api_key (Some uid) (Some (Utf8 key)) (MkEnv (Model.Connected rows) req)
    = ([Hashed (Bytes.encode_utf8 key); QueryGet uid], Raise (TypeError msg)).
Proof.
  intros Huid Hkey Hfind Hhash. unfold validate_api_key.
  rewrite (not_int_nonzero uid Huid), (not_str_nonempty key Hkey).
  run. rewrite Hfind. run. rewrite Hhash.
  eexists. reflexivity.
Qed.

Lemma find_first {A} (p : A -> bool) (l : list A) :
  (exists before x after,
      l = before ++ x :: after /\ p x = true
      /\ Forall (fun y => p y = false) before /\ find p l = Some x)
  \/ (Forall (fun y => p y = false) l /\ find p l = None).
Proof.
  induction l as [|a l IH]; cbn [find].
  - right. split; [constructor | reflexivity].
  - destruct (p a) eqn:Hpa.
    + left. exists [], a, l. repeat split; auto.
    + destruct IH as [(before & x & after & Hl & Hx & Hb & Hf) | [Hall Hf]].
      * left. exists (a :: before), x, after. subst l. repeat split; auto.
      * right. split; auto.
Qed.

Lemma has_key_hash_true (d : string) (u : Model.User) :
  Model.has_key_hash d u = true <-> Model.api_key u = Some d.
Proof.
  unfold Model.has_key_hash. destruct (Model.api_key u) as [h|].
  - rewrite String.eqb_eq. split; congruence.
  - split; discriminate.
Qed.

Lemma has_key_hash_false (d : string) (u : Model.User) :
  Model.has_key_hash d u = false <-> Model.api_key u <> Some d.
Proof.
  rewrite <- has_key_hash_true. destruct (Model.has_key_hash d u); split; congruence.
Qed.

Lemma find_unique {A} (p : A -> bool) (l : list A) (x : A) :
  In x l -> p x = true ->
  (forall y, In y l -> p y = true -> y = x) ->
  find p l = Some x.
Proof.
  induction l as [|a l IH]; cbn [find In]; intros Hin Hx Huniq.
  - contradiction.
  - destruct (p a) eqn:Hpa.
    + f_equal. apply Huniq; auto.
    + apply IH; auto.
      destruct Hin as [Heq|Hin]; [subst a; congruence | exact Hin].
Qed.

Lemma find_none_forall {A} (p : A -> bool) (l : list A) :
  Forall (fun y => p y = false) l -> find p l = None.
Proof.
  induction 1 as [|a l Ha _ IH]; cbn [find].
  - reflexivity.
  - rewrite Ha. exact IH.
Qed.

Lemma find_in_true {A} (p : A -> bool) (l : list A) (x : A) :
  find p l = Some x -> In x l /\ p x = true.
Proof. apply find_some. Qed.

(* ------------------------------------------------------------------ *)
(** ** Fixtures: the seeded user of the test suite *)

Example seed_key_validates :
  validate_api_key (Some 1) (Some (Utf8 (api_key seed_pair))) (seed_env [])
  = ([Hashed (Bytes.encode_utf8 (api_key seed_pair)); QueryGet 1], Ok true).
Proof. vm_compute. reflexivity. Qed.

Example seed_key_resolves :
  snd (user_for_api_key (Some (Utf8 (api_key seed_pair))) (seed_env [])) = Ok (Some seed_user).
Proof. vm_compute. reflexivity. Qed.

Example wrong_key_is_refused :
  snd (validate_api_key (Some 1) (Some (Utf8 "not the key")) (seed_env [])) = Ok false.
Proof. vm_compute. reflexivity. Qed.

(* ------------------------------------------------------------------ *)
(** ** Validation and lookup *)

(** C6.  With a [user_id] that is [None] or [0], or an [api_key] that is
    [None] or empty, [validate_api_key] returns [False]; with an [api_key]
    that is [None] or empty, [user_for_api_key] returns [None]; and either
    run leaves an empty trace: no digest is computed and the store is not
    queried. *)
Theorem empty_input_short_circuit
    (env : Env) (user_id : option Z) (api_key key : option str) :
  absent_or_zero user_id \/ absent_or_empty api_key ->
  absent_or_empty key ->
  validate_api_key user_id api_key env = ([], Ok false)
  /\ user_for_api_key key env = ([], Ok None).
Proof.
  intros Hv Hu. split.
  - destruct Hv as [[H|H]|[H|H]]; subst.
    + reflexivity.
    + destruct api_key; reflexivity.
    + destruct user_id; reflexivity.
    + destruct user_id as [uid|]; [|reflexivity].
      unfold validate_api_key. cbn [not_str String.eqb].
      rewrite orb_true_r. reflexivity.
  - destruct Hu as [H|H]; subst; reflexivity.
Qed.

Lemma empty_input_short_circuit_witness :
  validate_api_key None (Some (Utf8 "")) (down_env []) = ([], Ok false)
  /\ user_for_api_key (Some (Utf8 "")) (down_env []) = ([], Ok None).
Proof.
  apply (empty_input_short_circuit (down_env []) None (Some (Utf8 "")) (Some (Utf8 ""))).
  - left. left. reflexivity.
  - right. reflexivity.
Defined.

(** C3 as stated fails on a secret that has no UTF-8 encoding: for the
    string of the one surrogate U+D800, which is not empty,
    [user_for_api_key] raises at [encode], before any digest or query, and
    returns neither a user nor [None]. *)
Lemma lookup_fails_on_surrogate :
  not_str (Some lone_surrogate) = false
  /\ exists msg,
       user_for_api_key (Some lone_surrogate) (seed_env [])
       = ([], Raise (UnicodeEncodeError msg)).
Proof. split; [reflexivity|]. eexists. reflexivity. Qed.

(** C3, amended.  For a non-empty secret that has a UTF-8 encoding and any
    rows of a store that answers, [user_for_api_key] computes the SHA-256 hexadecimal digest of the UTF-8
    encoding of the secret and asks the store one question, for the first
    row whose hash is that digest: it returns that row, the rows before it
    holding other hashes or none, and [None] when no row holds the digest. *)
Theorem user_for_api_key_lookup
    (secret : string) (rows : list Model.User) (req : Flask.Request) :
  secret <> "" ->
  let digest := Hashlib.hexdigest (Bytes.encode_utf8 secret) in
  let run := user_for_api_key (Some (Utf8 secret)) (MkEnv (Model.Connected rows) req) in
  fst run = [Hashed (Bytes.encode_utf8 secret); QueryFilterBy digest]
  /\ ((exists before u after,
          rows = before ++ u :: after
          /\ Model.api_key u = Some digest
          /\ Forall (fun v => Model.api_key v <> Some digest) before
          /\ snd run = Ok (Some u))
      \/ (Forall (fun v => Model.api_key v <> Some digest) rows
          /\ snd run = Ok None)).
Proof.
  intros Hsecret. cbv zeta.
  rewrite (user_for_api_key_connected secret rows req Hsecret).
  unfold key_digest. cbn [fst snd]. split; [reflexivity|].
  set (d := Hashlib.hexdigest (Bytes.encode_utf8 secret)).
  destruct (find_first (Model.has_key_hash d) rows)
    as [(before & u & after & Hrows & Hu & Hbefore & Hfind) | [Hall Hfind]].
  - left. exists before, u, after. rewrite Hfind.
    repeat split; auto.
    + apply has_key_hash_true. exact Hu.
    + eapply Forall_impl; [|exact Hbefore].
      intros v Hv. apply has_key_hash_false. exact Hv.
  - right. rewrite Hfind. split; [|reflexivity].
    eapply Forall_impl; [|exact Hall].
    intros v Hv. apply has_key_hash_false. exact Hv.
Qed.

Lemma user_for_api_key_lookup_witness :
  fst (user_for_api_key (Some (Utf8 "secret")) (seed_env []))
  = [Hashed (Bytes.encode_utf8 "secret");
     QueryFilterBy (Hashlib.hexdigest (Bytes.encode_utf8 "secret"))].
Proof.
  refine (proj1 (user_for_api_key_lookup "secret" [seed_user] (Flask.MkRequest []) _)).
  discriminate.
Defined.

Lemma validate_api_key_falsy (uid : Z) (key : string) (env : Env) :
  uid = 0 \/ key = "" ->
  validate_api_key (Some uid) (Some (Utf8 key)) env = ([], Ok false).
Proof.
  intros [H|H]; subst; unfold validate_api_key.
  - reflexivity.
  - cbn [not_str String.eqb]. rewrite orb_true_r. reflexivity.
Qed.

Lemma has_id_true (n : Z) (u : Model.User) :
  Model.has_id n u = true <-> Model.id u = n.
Proof. unfold Model.has_id. apply Z.eqb_eq. Qed.

(** C2, at its failing input.  [user_for_api_key] has no handler around
    its query: on a store whose lookup raises it raises the error of the
    store, after the digest and the query, where [validate_api_key] prints
    a line and returns [False]. *)
Lemma lookup_error_reaches_caller :
  user_for_api_key (Some (Utf8 "k")) (down_env [])
  = ([Hashed (Bytes.encode_utf8 "k"); QueryFilterBy (key_digest "k")],
     Raise (StoreError "connection refused")).
Proof. reflexivity. Qed.

(** A user on record with no key hash: [compare_digest] receives [None]
    and raises, past the handler of the lookup. *)
Example null_hash_raises :
  snd (validate_api_key (Some 1) (Some (Utf8 "k"))
         (MkEnv (Model.Connected [Model.MkUser 1 "Matt" None]) (Flask.MkRequest [])))
  = Raise (TypeError
             "unsupported operand types(s) or combination of types: 'str' and 'NoneType'").
Proof. reflexivity. Qed.

(* ------------------------------------------------------------------ *)
(** ** Generation followed by verification *)

Lemma generated_key_nonempty (urandom : nat -> byte) :
  api_key (generate_api_key urandom) <> "".
Proof.
  intros H.
  pose proof (token_hex_length 32 urandom) as Hlen.
  unfold generate_api_key in H. cbn [api_key] in H.
  rewrite H in Hlen. discriminate Hlen.
Qed.

(** C4 as stated fails on a user whose identifier is [0]: the store maps
    that user to the generated hash, yet [not user_id] holds and
    [validate_api_key] returns [False] for the generated key. *)
Lemma round_trip_fails_for_user_zero :
  let pair := generate_api_key zeros in
  let u := Model.MkUser 0 "Matt" (Some (hashed_key pair)) in
  store_maps [u] u (hashed_key pair)
  /\ validate_api_key (Some (Model.id u)) (Some (Utf8 (api_key pair)))
       (MkEnv (Model.Connected [u]) (Flask.MkRequest []))
     = ([], Ok false).
Proof.
  cbv zeta. split; [|reflexivity].
  unfold store_maps. repeat split.
  - left. reflexivity.
  - intros v [Hv|[]] _. symmetry. exact Hv.
  - intros v [Hv|[]] _. symmetry. exact Hv.
Qed.

(** C4, amended.  For a pair returned by [generate_api_key] and a store
    that answers and maps a user [u] with a non-zero identifier to the
    pair's hash: [validate_api_key] on [u]'s identifier and the pair's key
    returns [True], [user_for_api_key] on the pair's key returns [u], and
    [validate_api_key] on [u]'s identifier and any secret whose digest is
    not the pair's hash returns [False]. *)
Theorem generate_then_validate
    (urandom : nat -> byte) (rows : list Model.User) (req : Flask.Request)
    (u : Model.User) :
  let pair := generate_api_key urandom in
  let env := MkEnv (Model.Connected rows) req in
  store_maps rows u (hashed_key pair) ->
  Model.id u <> 0 ->
  snd (validate_api_key (Some (Model.id u)) (Some (Utf8 (api_key pair))) env) = Ok true
  /\ snd (user_for_api_key (Some (Utf8 (api_key pair))) env) = Ok (Some u)
  /\ (forall other : string,
         Hashlib.hexdigest (Bytes.encode_utf8 other) <> hashed_key pair ->
         snd (validate_api_key (Some (Model.id u)) (Some (Utf8 other)) env) = Ok false).
Proof.
  cbv zeta. intros (Hin & Hhash & Hid & Hkey) Hnz.
  pose proof (generated_key_nonempty urandom) as Hne.
  assert (Hget : find (Model.has_id (Model.id u)) rows = Some u).
  { apply find_unique; auto.
    - apply has_id_true. reflexivity.
    - intros v Hv Hp. apply has_id_true in Hp. auto. }
  assert (Hascii : Bytes.isascii (hashed_key (generate_api_key urandom)) = true)
    by apply hexdigest_isascii.
  repeat apply conj.
  - rewrite (validate_api_key_known _ _ rows req u _ Hnz Hne Hget Hhash Hascii).
    cbn [snd]. f_equal. apply String.eqb_eq. reflexivity.
  - rewrite (user_for_api_key_connected _ rows req Hne). cbn [snd]. f_equal.
    apply find_unique; auto.
    + apply has_key_hash_true. exact Hhash.
    + intros v Hv Hp. apply has_key_hash_true in Hp. auto.
  - intros other Hother.
    destruct (string_dec other "") as [He|He].
    + rewrite validate_api_key_falsy by auto. reflexivity.
    + rewrite (validate_api_key_known _ _ rows req u _ Hnz He Hget Hhash Hascii).
      cbn [snd]. f_equal. apply String.eqb_neq. exact Hother.
Qed.

Lemma generate_then_validate_witness :
  snd (validate_api_key (Some 1) (Some (Utf8 (api_key seed_pair))) (seed_env [])) = Ok true
  /\ snd (user_for_api_key (Some (Utf8 (api_key seed_pair))) (seed_env [])) = Ok (Some seed_user)
  /\ snd (validate_api_key (Some 1) (Some (Utf8 "not the key")) (seed_env [])) = Ok false.
Proof.
  assert (Hmaps : store_maps [seed_user] seed_user (hashed_key (generate_api_key zeros))).
  { unfold store_maps. repeat split.
    - left. reflexivity.
    - intros v [Hv|[]] _. symmetry. exact Hv.
    - intros v [Hv|[]] _. symmetry. exact Hv. }
  assert (Hid : Model.id seed_user <> 0) by discriminate.
  destruct (generate_then_validate zeros [seed_user] (Flask.MkRequest []) seed_user
              Hmaps Hid) as (Hvalid & Hfound & Hother).
  refine (conj Hvalid (conj Hfound (Hother "not the key" _))).
  intros H. vm_compute in H. discriminate H.
Defined.

(* ------------------------------------------------------------------ *)
(** ** The guard *)

Lemma view_calls_app (t1 t2 : list event) :
  view_calls (t1 ++ t2) = view_calls t1 ++ view_calls t2.
Proof.
  induction t1 as [|ev t1 IH]; [reflexivity|].
  destruct ev; cbn [app view_calls]; rewrite IH; reflexivity.
Qed.

Lemma user_for_api_key_surrogated (s : surrogated) (env : Env) :
  user_for_api_key (Some (Surrogated s)) env
  = ([], Raise (UnicodeEncodeError "'utf-8' codec can't encode: surrogates not allowed")).
Proof. reflexivity. Qed.

(** Every run of [user_for_api_key], by what decides it. *)
Lemma user_for_api_key_runs (key : option str) (env : Env) :
  (absent_or_empty key /\ user_for_api_key key env = ([], Ok None))
  \/ (exists s msg,
         key = Some (Surrogated s)
         /\ user_for_api_key key env = ([], Raise (UnicodeEncodeError msg)))
  \/ exists k r,
       key = Some (Utf8 k) /\ k <> ""
       /\ user_for_api_key key env
          = ([Hashed (Bytes.encode_utf8 k); QueryFilterBy (key_digest k)], r).
Proof.
  destruct key as [[k|s]|]; [| |left; split; [left|]; reflexivity].
  - destruct (string_dec k "") as [He|He];
      [subst; left; split; [right|]; reflexivity|].
    right. right. exists k. destruct env as [[rows|error] req].
    + eexists. repeat split; auto. apply user_for_api_key_connected. exact He.
    + eexists. repeat split; auto. apply user_for_api_key_faulty. exact He.
  - right. left. exists s. eexists. split; reflexivity.
Qed.

Lemma user_for_api_key_cases (key : option string) (env : Env) :
  user_for_api_key (option_map Utf8 key) env = ([], Ok None)
  \/ exists k r,
       key = Some k /\ k <> ""
       /\ user_for_api_key (option_map Utf8 key) env
          = ([Hashed (Bytes.encode_utf8 k); QueryFilterBy (key_digest k)], r).
Proof.
  destruct key as [k|]; [|left; reflexivity].
  destruct (string_dec k "") as [He|He]; [subst; left; reflexivity|].
  right. exists k. destruct env as [[rows|error] req].
  - eexists. repeat split; auto. apply user_for_api_key_connected. exact He.
  - eexists. repeat split; auto. apply user_for_api_key_faulty. exact He.
Qed.

Lemma user_for_api_key_absent_header (env : Env) :
  Flask.contains "x-api-key" (Flask.headers (request env)) = false ->
  user_for_api_key
      (option_map Utf8 (Flask.get "x-api-key" (Flask.headers (request env)))) env
  = ([], Ok None).
Proof.
  unfold Flask.contains.
  destruct (Flask.get "x-api-key" (Flask.headers (request env)));
    [discriminate | reflexivity].
Qed.

Lemma key_step_trace (env : Env) :
  forallb is_key_event (fst (key_step env)) = true
  /\ view_calls (fst (key_step env)) = [].
Proof.
  unfold key_step.
  destruct (Flask.contains "x-api-key" (Flask.headers (request env)));
    [|split; reflexivity].
  destruct (user_for_api_key_cases
              (Flask.get "x-api-key" (Flask.headers (request env))) env)
    as [H | (k & r & _ & _ & H)]; rewrite H; split; reflexivity.
Qed.

Lemma key_step_is_lookup (env : Env) :
  snd (key_step env)
  = snd (user_for_api_key
      (option_map Utf8 (Flask.get "x-api-key" (Flask.headers (request env)))) env).
Proof.
  unfold key_step.
  destruct (Flask.contains "x-api-key" (Flask.headers (request env))) eqn:Hc;
    [reflexivity|].
  rewrite user_for_api_key_absent_header by exact Hc. reflexivity.
Qed.

Lemma jwt_trace_events (hs : Flask.Headers) :
  forallb is_jwt_event (jwt_trace hs) = true /\ view_calls (jwt_trace hs) = [].
Proof. unfold jwt_trace. destruct (Flask.contains _ hs); split; reflexivity. Qed.

Section GuardRuns.

Variables Args Resp : Type.
Variable f : Args -> Model.User -> M Resp.

(** The run of the guard, step by step. *)
Lemma decorated_function_run (args : Args) (env : Env) :
  decorated_function f args env
  = let tj := jwt_trace (Flask.headers (request env)) in
    match key_step env with
    | (tk, Ok (Some u)) =>
        (tj ++ tk ++ [ViewCalled u (fst (f args u env))], snd (f args u env))
    | (tk, Ok None) => (tj ++ tk, Raise (ExcAuthError authorization_required))
    | (tk, Raise e) => (tj ++ tk, Raise e)
    end.
Proof.
  unfold decorated_function, jwt_trace, key_step, call_view. run.
  destruct (Flask.contains "Authorization" (Flask.headers (request env)));
    destruct (Flask.contains "x-api-key" (Flask.headers (request env)));
    cbn;
    try destruct (user_for_api_key _ env) as [tk [[u|]|e]];
    try destruct (f args u env) as [tb rb];
    cbn; rewrite ?app_nil_r; reflexivity.
Qed.

End GuardRuns.

Lemma user_for_api_key_raises (key : option string) (env : Env) (e : exn) :
  snd (user_for_api_key (option_map Utf8 key) env) = Raise e ->
  exists error, e = StoreError error /\ store env = Model.Faulty error.
Proof.
  destruct (user_for_api_key_cases key env) as [H | (k & r & -> & Hk & H)].
  - rewrite H. discriminate.
  - cbn [option_map]. destruct env as [[rows|error] req].
    + rewrite user_for_api_key_connected by exact Hk. discriminate.
    + rewrite user_for_api_key_faulty by exact Hk. cbn [snd].
      intros He. injection He as <-. exists error. split; reflexivity.
Qed.

(** C1.  The user the guard binds is the one [user_for_api_key] yields for
    the [x-api-key] header of the request, [user_from_jwt] yielding none.
    When that is [None] the guard raises its [AuthError] and its trace holds
    no call of [f]; when it is a user, the trace holds one call of [f], its
    last event, with that user as [current_user], and the guard returns what
    [f] returns; when the lookup raises, [f] is not called either. *)
Theorem requires_auth_guards_view
    (Args Resp : Type) (f : Args -> Model.User -> M Resp) (args : Args) (env : Env) :
  let hs := Flask.headers (request env) in
  let run := requires_auth f args env in
  (forall h env', snd (user_from_jwt h env') = Ok None)
  /\ match snd (user_for_api_key (option_map Utf8 (Flask.get "x-api-key" hs)) env) with
     | Ok (Some u) =>
         (exists before,
             fst run = before ++ [ViewCalled u (fst (f args u env))]
             /\ view_calls before = [])
         /\ view_calls (fst run) = [(u, fst (f args u env))]
         /\ snd run = snd (f args u env)
     | Ok None =>
         view_calls (fst run) = []
         /\ snd run
            = Raise (ExcAuthError
                       (AuthError_init "Authorization is required to access this resource" None))
     | Raise e =>
         view_calls (fst run) = [] /\ snd run = Raise e
     end.
Proof.
  cbv zeta. split; [reflexivity|].
  unfold requires_auth. rewrite decorated_function_run. cbv zeta.
  rewrite <- key_step_is_lookup.
  destruct (jwt_trace_events (Flask.headers (request env))) as [_ Hj].
  destruct (key_step_trace env) as [_ Hk].
  destruct (key_step env) as [tk [[u|]|e]]; cbn [fst snd] in *.
  - split; [|split].
    + exists (jwt_trace (Flask.headers (request env)) ++ tk).
      rewrite view_calls_app, Hj, Hk, app_assoc. split; reflexivity.
    + rewrite !view_calls_app, Hj, Hk. reflexivity.
    + reflexivity.
  - rewrite view_calls_app, Hj, Hk. split; reflexivity.
  - rewrite view_calls_app, Hj, Hk. split; reflexivity.
Qed.

(** C5.  [user_from_jwt] yields no user for any header.  The trace of the
    guard is the JWT attempt, made when the request has an [Authorization]
    header, then the events of the API-key lookup, made when it has an
    [x-api-key] header, then the call of the view if any: no event of the
    key lookup comes before the JWT attempt, and the lookup never replaces a
    user the JWT step had found, since that step finds none. *)
Theorem jwt_before_api_key
    (Args Resp : Type) (f : Args -> Model.User -> M Resp) (args : Args) (env : Env) :
  let hs := Flask.headers (request env) in
  (forall h env', user_from_jwt h env' = ([JwtTried h], Ok None))
  /\ exists tj tk tv,
       fst (requires_auth f args env) = tj ++ tk ++ tv
       /\ tj = (if Flask.contains "Authorization" hs
                then [JwtTried (Flask.get "Authorization" hs)] else [])
       /\ tk = (if Flask.contains "x-api-key" hs
                then fst (user_for_api_key (option_map Utf8 (Flask.get "x-api-key" hs)) env) else [])
       /\ forallb is_jwt_event tj = true
       /\ forallb is_key_event tk = true
       /\ forallb is_view_event tv = true.
Proof.
  cbv zeta. split; [reflexivity|].
  unfold requires_auth. rewrite decorated_function_run. cbv zeta.
  destruct (jwt_trace_events (Flask.headers (request env))) as [Hj _].
  destruct (key_step_trace env) as [Hk _].
  assert (Htk : fst (key_step env)
                = if Flask.contains "x-api-key" (Flask.headers (request env))
                  then fst (user_for_api_key
                              (option_map Utf8
                                 (Flask.get "x-api-key" (Flask.headers (request env))))
                              env)
                  else []).
  { unfold key_step. destruct (Flask.contains "x-api-key" _); reflexivity. }
  exists (jwt_trace (Flask.headers (request env))), (fst (key_step env)).
  destruct (key_step env) as [tk [[u|]|e]]; cbn [fst snd] in *.
  - exists [ViewCalled u (fst (f args u env))]. repeat split; auto.
  - exists []. rewrite app_nil_r. repeat split; auto.
  - exists []. rewrite app_nil_r. repeat split; auto.
Qed.

(** C7.  A request without an [x-api-key] header, with or without an
    [Authorization] header, and a request whose [x-api-key] header is empty
    make the guard raise the [AuthError] with the fixed message and status
    401; the trace holds the JWT attempt at most: no digest, no store query,
    no call of the view, and nothing of the request enters the error. *)
Theorem missing_or_empty_key_refused
    (Args Resp : Type) (f : Args -> Model.User -> M Resp) (args : Args) (env : Env) :
  let hs := Flask.headers (request env) in
  Flask.contains "x-api-key" hs = false \/ Flask.get "x-api-key" hs = Some "" ->
  requires_auth f args env
  = ((if Flask.contains "Authorization" hs
      then [JwtTried (Flask.get "Authorization" hs)] else []),
     Raise (ExcAuthError
              {| message := "Authorization is required to access this resource";
                 status_code := 401 |})).
Proof.
  cbv zeta. intros H.
  unfold requires_auth. rewrite decorated_function_run. cbv zeta.
  assert (Hstep : key_step env = ([], Ok None)).
  { unfold key_step. destruct H as [H|H].
    - rewrite H. reflexivity.
    - rewrite H. destruct (Flask.contains "x-api-key" _); reflexivity. }
  rewrite Hstep, app_nil_r. reflexivity.
Qed.

Lemma missing_or_empty_key_refused_witness :
  requires_auth user_view tt (seed_env [("X-Api-Key", "")])
  = ([], Raise (ExcAuthError
                  {| message := "Authorization is required to access this resource";
                     status_code := 401 |})).
Proof.
  apply (missing_or_empty_key_refused unit Z user_view tt (seed_env [("X-Api-Key", "")])).
  right. reflexivity.
Defined.

(** C8.  [AuthError] takes status 401 when none is supplied, and an
    [AuthError] that the guard raises, the view not having been called, is
    the one built from the fixed message alone: its status is 401. *)
Theorem guard_failure_status
    (Args Resp : Type) (f : Args -> Model.User -> M Resp) (args : Args) (env : Env)
    (e : AuthError) :
  snd (requires_auth f args env) = Raise (ExcAuthError e) ->
  view_calls (fst (requires_auth f args env)) = [] ->
  (forall msg, status_code (AuthError_init msg None) = 401)
  /\ e = AuthError_init "Authorization is required to access this resource" None
  /\ status_code e = 401.
Proof.
  unfold requires_auth. rewrite decorated_function_run. cbv zeta.
  pose proof (key_step_is_lookup env) as Hlookup.
  destruct (key_step env) as [tk [[u|]|e']]; cbn [fst snd] in *; intros Hr Hv.
  - rewrite !view_calls_app in Hv.
    apply app_eq_nil in Hv. destruct Hv as [_ Hv].
    apply app_eq_nil in Hv. destruct Hv as [_ Hv]. discriminate Hv.
  - injection Hr as <-. repeat split.
  - symmetry in Hlookup.
    destruct (user_for_api_key_raises _ _ _ Hlookup) as (error & He & _).
    rewrite He in Hr. discriminate Hr.
Qed.

Lemma guard_failure_status_witness :
  status_code authorization_required = 401.
Proof.
  refine (proj2 (proj2 (guard_failure_status unit Z user_view tt (seed_env [])
                          authorization_required _ _))).
  - reflexivity.
  - reflexivity.
Defined.

Example seed_request_is_served :
  requires_auth user_view tt (seed_env [("x-api-key", api_key seed_pair)])
  = ([Hashed (Bytes.encode_utf8 (api_key seed_pair));
      QueryFilterBy (hashed_key seed_pair);
      ViewCalled seed_user [Printed "Matt"]],
     Ok 1).
Proof. vm_compute. reflexivity. Qed.

(* ------------------------------------------------------------------ *)
(** ** Further properties of [validate_api_key] *)

Lemma validate_api_key_nonascii (uid : Z) (key : string) rows req u h :
  uid <> 0 -> key <> "" ->
  find (Model.has_id uid) rows = Some u ->
  Model.api_key u = Some h ->
  Bytes.isascii h = false ->
  validate_api_key (Some uid) (Some (Utf8 key)) (MkEnv (Model.Connected rows) req)
  = ([Hashed (Bytes.encode_utf8 key); QueryGet uid],
     Raise (TypeError "comparing strings with non-ASCII characters is not supported")).
Proof.
  intros Huid Hkey Hfind Hhash Hascii. unfold validate_api_key.
  rewrite (not_int_nonzero uid Huid), (not_str_nonempty key Hkey).
  run. rewrite Hfind. run. rewrite Hhash.
  rewrite hexdigest_isascii, Hascii. reflexivity.
Qed.

(** Every run of [validate_api_key], by what decides it. *)
Lemma validate_api_key_cases (user_id : option Z) (api_key : option str) (env : Env) :
  ((absent_or_zero user_id \/ absent_or_empty api_key)
   /\ validate_api_key user_id api_key env = ([], Ok false))
  \/ (exists uid s msg,
         user_id = Some uid /\ uid <> 0 /\ api_key = Some (Surrogated s)
         /\ validate_api_key user_id api_key env = ([], Raise (UnicodeEncodeError msg)))
  \/ exists uid key,
       user_id = Some uid /\ api_key = Some (Utf8 key) /\ uid <> 0 /\ key <> ""
       /\ (((exists error, store env = Model.Faulty error)
            \/ (exists rows, store env = Model.Connected rows
                             /\ find (Model.has_id uid) rows = None))
           /\ validate_api_key user_id api_key env
              = ([Hashed (Bytes.encode_utf8 key); QueryGet uid;
                  Printed "User fetching failed."], Ok false)
           \/ exists rows u,
                store env = Model.Connected rows
                /\ find (Model.has_id uid) rows = Some u
                /\ ((exists h, Model.api_key u = Some h /\ Bytes.isascii h = true
                               /\ validate_api_key user_id api_key env
                                  = ([Hashed (Bytes.encode_utf8 key); QueryGet uid],
                                     Ok (String.eqb (key_digest key) h)))
                    \/ ((Model.api_key u = None
                         \/ exists h, Model.api_key u = Some h /\ Bytes.isascii h = false)
                        /\ exists msg,
                             validate_api_key user_id api_key env
                             = ([Hashed (Bytes.encode_utf8 key); QueryGet uid],
                                Raise (TypeError msg))))).
Proof.
  destruct user_id as [uid|]; [|left; split; [left; left|]; reflexivity].
  destruct api_key as [[key|s]|]; [| |left; split; [right; left|]; reflexivity].
  2:{ destruct (Z.eq_dec uid 0) as [Hz|Hz].
      - left. subst. split; [left; right|]; reflexivity.
      - right. left. exists uid, s. eexists. repeat (split; [solve [auto]|]).
        unfold validate_api_key. rewrite (not_int_nonzero uid Hz). reflexivity. }
  destruct (Z.eq_dec uid 0) as [Hz|Hz].
  { left. split; [left; right; subst; reflexivity|].
    apply validate_api_key_falsy. auto. }
  destruct (string_dec key "") as [He|He].
  { left. split; [right; right; subst; reflexivity|].
    apply validate_api_key_falsy. auto. }
  right. right. exists uid, key. repeat (split; [solve [auto]|]).
  destruct env as [[rows|error] req]; cbn [store].
  - destruct (find (Model.has_id uid) rows) as [u|] eqn:Hfind.
    + right. exists rows, u. repeat (split; [solve [auto]|]).
      destruct (Model.api_key u) as [h|] eqn:Hh.
      * destruct (Bytes.isascii h) eqn:Hascii.
        -- left. exists h. repeat (split; [solve [auto]|]).
           apply (validate_api_key_known uid key rows req u h); assumption.
        -- right. split; [right; exists h; auto|]. eexists.
           apply (validate_api_key_nonascii uid key rows req u h); assumption.
      * right. split; [left; reflexivity|].
        apply (validate_api_key_null_hash uid key rows req u); assumption.
    + left. split.
      * right. exists rows. auto.
      * apply validate_api_key_unknown; assumption.
  - left. split.
    + left. exists error. reflexivity.
    + apply validate_api_key_faulty; assumption.
Qed.

Lemma Ok_inj {A} (a b : A) : Ok a = Ok b -> a = b.
Proof. intros H. injection H as H. exact H. Qed.

Lemma find_has_id (uid : Z) (rows : list Model.User) (u : Model.User) :
  In u rows -> Model.id u = uid ->
  (forall v, In v rows -> Model.id v = uid -> v = u) ->
  find (Model.has_id uid) rows = Some u.
Proof.
  intros Hin Hid Huniq. apply find_unique; auto.
  - apply has_id_true. exact Hid.
  - intros v Hv Hp. apply has_id_true in Hp. auto.
Qed.

(** X1.  [validate_api_key] returns [True] only for a non-zero [user_id]
    and a non-empty [api_key], on a store that answers and holds a user
    under that identifier whose key hash is the SHA-256 hexadecimal digest
    of the submitted key. *)
Theorem validate_api_key_sound
    (user_id : option Z) (api_key : option str) (env : Env) :
  snd (validate_api_key user_id api_key env) = Ok true ->
  exists uid key rows u,
    user_id = Some uid /\ uid <> 0
    /\ api_key = Some (Utf8 key) /\ key <> ""
    /\ store env = Model.Connected rows
    /\ In u rows /\ Model.id u = uid
    /\ Model.api_key u = Some (Hashlib.hexdigest (Bytes.encode_utf8 key)).
Proof.
  intros Htrue.
  destruct (validate_api_key_cases user_id api_key env)
    as [[_ Hrun] | [(uid & s & msg & _ & _ & _ & Hrun)
                   | (uid & key & -> & -> & Huid & Hkey & Hcases)]].
  { rewrite Hrun in Htrue. discriminate Htrue. }
  { rewrite Hrun in Htrue. discriminate Htrue. }
  destruct Hcases as [[_ Hrun] | (rows & u & Hstore & Hfind & Hrec)].
  { rewrite Hrun in Htrue. discriminate Htrue. }
  destruct (find_in_true _ _ _ Hfind) as [Hin Hid]. apply has_id_true in Hid.
  destruct Hrec as [(h & Hh & _ & Hrun) | [_ [msg Hrun]]].
  - rewrite Hrun in Htrue. cbn [snd] in Htrue.
    apply Ok_inj in Htrue. apply String.eqb_eq in Htrue.
    exists uid, key, rows, u. unfold key_digest in Htrue.
    rewrite <- Htrue in Hh.
    refine (conj eq_refl (conj Huid (conj eq_refl (conj Hkey
              (conj Hstore (conj Hin (conj Hid Hh))))))).
  - rewrite Hrun in Htrue. discriminate Htrue.
Qed.

Lemma validate_api_key_sound_witness :
  exists uid key rows u,
    Some 1 = Some uid /\ uid <> 0
    /\ Some (Utf8 (api_key seed_pair)) = Some (Utf8 key) /\ key <> ""
    /\ store (seed_env []) = Model.Connected rows
    /\ In u rows /\ Model.id u = uid
    /\ Model.api_key u = Some (Hashlib.hexdigest (Bytes.encode_utf8 key)).
Proof.
  apply (validate_api_key_sound (Some 1) (Some (Utf8 (api_key seed_pair))) (seed_env [])).
  vm_compute. reflexivity.
Defined.

(** X2.  For a non-zero [user_id] and a non-empty [api_key], on a store
    that answers and holds one user under [user_id], with an ASCII key
    hash: [validate_api_key] computes one digest, asks the store once, by
    identifier, prints nothing, and returns [True] exactly when the digest
    of the submitted key is the hash on record. *)
Theorem validate_api_key_verdict
    (uid : Z) (key : string) (rows : list Model.User) (req : Flask.Request)
    (u : Model.User) (h : string) :
  uid <> 0 -> key <> "" ->
  In u rows -> Model.id u = uid ->
  (forall v, In v rows -> Model.id v = uid -> v = u) ->
  Model.api_key u = Some h -> Bytes.isascii h = true ->
  let run := validate_api_key (Some uid) (Some (Utf8 key)) (MkEnv (Model.Connected rows) req) in
  fst run = [Hashed (Bytes.encode_utf8 key); QueryGet uid]
  /\ (snd run = Ok true <-> Hashlib.hexdigest (Bytes.encode_utf8 key) = h)
  /\ (snd run = Ok false <-> Hashlib.hexdigest (Bytes.encode_utf8 key) <> h).
Proof.
  intros Huid Hkey Hin Hid Huniq Hh Hascii. cbv zeta.
  rewrite (validate_api_key_known uid key rows req u h Huid Hkey
             (find_has_id uid rows u Hin Hid Huniq) Hh Hascii).
  unfold key_digest. cbn [fst snd]. split; [reflexivity|].
  destruct (String.eqb_spec (Hashlib.hexdigest (Bytes.encode_utf8 key)) h) as [Heq|Hneq].
  - split; split; intros H; try reflexivity; try assumption.
    + discriminate H.
    + contradiction.
  - split; split; intros H; try reflexivity; try assumption.
    + discriminate H.
    + contradiction.
Qed.

Lemma validate_api_key_verdict_witness :
  snd (validate_api_key (Some 1) (Some (Utf8 "not the key")) (seed_env [])) = Ok false.
Proof.
  refine (proj2 (proj2 (proj2 (validate_api_key_verdict 1 "not the key" [seed_user]
            (Flask.MkRequest []) seed_user (hashed_key seed_pair) _ _ _ _ _ _ _))) _).
  - discriminate.
  - discriminate.
  - left. reflexivity.
  - reflexivity.
  - intros v [Hv|[]] _. symmetry. exact Hv.
  - reflexivity.
  - vm_compute. reflexivity.
  - intros H. vm_compute in H. discriminate H.
Defined.

(** X3.  Whatever its inputs and the store, a run of [validate_api_key]
    leaves one of three traces.  Nothing: it then returns [False], or, for
    a key that holds a surrogate, raises the [UnicodeEncodeError] of
    [encode].  One digest of the submitted key, then one query by
    identifier.  Or these two followed by the line "User fetching failed.",
    in which case it returns [False].  It never queries the store by hash
    and prints neither key nor digest. *)
Theorem validate_api_key_trace
    (user_id : option Z) (api_key : option str) (env : Env) :
  let run := validate_api_key user_id api_key env in
  run = ([], Ok false)
  \/ (exists s msg,
         api_key = Some (Surrogated s)
         /\ run = ([], Raise (UnicodeEncodeError msg)))
  \/ exists uid key,
       user_id = Some uid /\ api_key = Some (Utf8 key)
       /\ (run = ([Hashed (Bytes.encode_utf8 key); QueryGet uid;
                   Printed "User fetching failed."], Ok false)
           \/ fst run = [Hashed (Bytes.encode_utf8 key); QueryGet uid]).
Proof.
  cbv zeta.
  destruct (validate_api_key_cases user_id api_key env)
    as [[_ Hrun] | [(uid & s & msg & _ & _ & Hk & Hrun)
                   | (uid & key & Hu & Hk & _ & _ & Hcases)]].
  { left. exact Hrun. }
  { right. left. exists s, msg. split; assumption. }
  right. right. exists uid, key. repeat (split; [assumption|]).
  destruct Hcases as [[_ Hrun] | (rows & u & _ & _ & Hrec)]; [left; exact Hrun|].
  right.
  destruct Hrec as [(h & _ & _ & Hrun) | [_ [msg Hrun]]]; rewrite Hrun; reflexivity.
Qed.

(** X4.  For a non-zero [user_id] and a non-empty [api_key], when the one
    user on record under [user_id] has no key hash, or a key hash that is
    not ASCII, [validate_api_key] raises a [TypeError]: the comparison
    stands after the [try] block, so nothing is printed and [False] is not
    returned. *)
Theorem validate_api_key_bad_record
    (uid : Z) (key : string) (rows : list Model.User) (req : Flask.Request)
    (u : Model.User) :
  uid <> 0 -> key <> "" ->
  In u rows -> Model.id u = uid ->
  (forall v, In v rows -> Model.id v = uid -> v = u) ->
  Model.api_key u = None
  \/ (exists h, Model.api_key u = Some h /\ Bytes.isascii h = false) ->
  exists msg,
    validate_api_key (Some uid) (Some (Utf8 key)) (MkEnv (Model.Connected rows) req)
    = ([Hashed (Bytes.encode_utf8 key); QueryGet uid], Raise (TypeError msg)).
Proof.
  intros Huid Hkey Hin Hid Huniq Hbad.
  pose proof (find_has_id uid rows u Hin Hid Huniq) as Hfind.
  destruct Hbad as [Hnone | (h & Hh & Hascii)].
  - apply (validate_api_key_null_hash uid key rows req u); assumption.
  - eexists. apply (validate_api_key_nonascii uid key rows req u h); assumption.
Qed.

Lemma validate_api_key_bad_record_witness :
  exists msg,
    validate_api_key (Some 1) (Some (Utf8 "k"))
      (MkEnv (Model.Connected [Model.MkUser 1 "Matt" None]) (Flask.MkRequest []))
    = ([Hashed (Bytes.encode_utf8 "k"); QueryGet 1], Raise (TypeError msg)).
Proof.
  apply (validate_api_key_bad_record 1 "k" [Model.MkUser 1 "Matt" None]
           (Flask.MkRequest []) (Model.MkUser 1 "Matt" None)).
  - discriminate.
  - discriminate.
  - left. reflexivity.
  - reflexivity.
  - intros v [Hv|[]] _. symmetry. exact Hv.
  - left. reflexivity.
Defined.

(** X5.  [validate_api_key] raises in two cases only.  For a non-zero
    [user_id] and a key that holds a surrogate, it raises the
    [UnicodeEncodeError] of [encode], before any digest or query.  On a
    store that answers with a user under [user_id] whose key hash is absent
    or not ASCII, it raises the [TypeError] of [compare_digest].  The error
    of a store lookup and the absence of the user never leave it. *)
Theorem validate_api_key_raises
    (user_id : option Z) (api_key : option str) (env : Env) (e : exn) :
  snd (validate_api_key user_id api_key env) = Raise e ->
  (exists uid s msg,
      e = UnicodeEncodeError msg
      /\ user_id = Some uid /\ uid <> 0 /\ api_key = Some (Surrogated s)
      /\ fst (validate_api_key user_id api_key env) = [])
  \/ ((exists msg, e = TypeError msg)
      /\ exists uid rows u,
           user_id = Some uid /\ store env = Model.Connected rows
           /\ In u rows /\ Model.id u = uid
           /\ (Model.api_key u = None
               \/ exists h, Model.api_key u = Some h /\ Bytes.isascii h = false)).
Proof.
  intros Hraise.
  destruct (validate_api_key_cases user_id api_key env)
    as [[_ Hrun] | [(uid & s & msg & Hu & Huid & Hk & Hrun)
                   | (uid & key & -> & -> & Huid & Hkey & Hcases)]].
  { rewrite Hrun in Hraise. discriminate Hraise. }
  { left. rewrite Hrun in Hraise |- *. cbn [fst snd] in *.
    injection Hraise as <-. exists uid, s, msg. repeat split; auto. }
  right.
  destruct Hcases as [[_ Hrun] | (rows & u & Hstore & Hfind & Hrec)].
  { rewrite Hrun in Hraise. discriminate Hraise. }
  destruct (find_in_true _ _ _ Hfind) as [Hin Hid]. apply has_id_true in Hid.
  destruct Hrec as [(h & _ & _ & Hrun) | [Hbad [msg Hrun]]].
  - rewrite Hrun in Hraise. discriminate Hraise.
  - rewrite Hrun in Hraise. cbn [snd] in Hraise. injection Hraise as <-.
    split; [exists msg; reflexivity|].
    exists uid, rows, u. repeat split; auto.
Qed.

Lemma validate_api_key_raises_witness :
  exists uid s msg,
    UnicodeEncodeError "'utf-8' codec can't encode: surrogates not allowed"
    = UnicodeEncodeError msg
    /\ Some 1 = Some uid /\ uid <> 0 /\ Some lone_surrogate = Some (Surrogated s)
    /\ fst (validate_api_key (Some 1) (Some lone_surrogate) (seed_env [])) = [].
Proof.
  destruct (validate_api_key_raises (Some 1) (Some lone_surrogate) (seed_env [])
              (UnicodeEncodeError "'utf-8' codec can't encode: surrogates not allowed")
              eq_refl) as [H | [[msg Hmsg] _]].
  - exact H.
  - discriminate Hmsg.
Defined.

(* ------------------------------------------------------------------ *)
(** ** Further properties of [user_for_api_key] and of the two checks together *)

Lemma user_for_api_key_some (key : option str) (env : Env) (u : Model.User) :
  snd (user_for_api_key key env) = Ok (Some u) ->
  exists k rows,
    key = Some (Utf8 k) /\ k <> "" /\ store env = Model.Connected rows
    /\ find (Model.has_key_hash (key_digest k)) rows = Some u.
Proof.
  intros Hsome.
  destruct (user_for_api_key_runs key env)
    as [[_ H] | [(s & msg & _ & H) | (k & r & -> & Hk & _)]].
  { rewrite H in Hsome. discriminate Hsome. }
  { rewrite H in Hsome. discriminate Hsome. }
  destruct env as [[rows|error] req].
  - rewrite (user_for_api_key_connected k rows req Hk) in Hsome. cbn [snd] in Hsome.
    apply Ok_inj in Hsome. exists k, rows. auto.
  - rewrite (user_for_api_key_faulty k error req Hk) in Hsome. discriminate Hsome.
Qed.

(** X6.  When the identifiers of the store are unique, a user that
    [user_for_api_key] returns for a key, if its identifier is not [0],
    passes [validate_api_key] with that key. *)
Theorem lookup_then_validate
    (key : option str) (rows : list Model.User) (req : Flask.Request)
    (u : Model.User) :
  let env := MkEnv (Model.Connected rows) req in
  (forall v w, In v rows -> In w rows -> Model.id v = Model.id w -> v = w) ->
  Model.id u <> 0 ->
  snd (user_for_api_key key env) = Ok (Some u) ->
  snd (validate_api_key (Some (Model.id u)) key env) = Ok true.
Proof.
  cbv zeta. intros Huniq Hid Hsome.
  destruct (user_for_api_key_some _ _ _ Hsome) as (k & rows' & -> & Hk & Hstore & Hfind).
  cbn [store] in Hstore. apply eq_sym in Hstore.
  assert (Hrows : rows' = rows).
  { revert Hstore. intros Hs. inversion Hs. reflexivity. }
  subst rows'.
  destruct (find_in_true _ _ _ Hfind) as [Hin Hhash].
  apply has_key_hash_true in Hhash.
  rewrite (validate_api_key_known (Model.id u) k rows req u (key_digest k)
             Hid Hk).
  - cbn [snd]. f_equal. apply String.eqb_eq. reflexivity.
  - apply find_has_id; auto.
  - exact Hhash.
  - apply hexdigest_isascii.
Qed.

Lemma lookup_then_validate_witness :
  snd (validate_api_key (Some (Model.id seed_user)) (Some (Utf8 (api_key seed_pair))) (seed_env []))
  = Ok true.
Proof.
  apply (lookup_then_validate (Some (Utf8 (api_key seed_pair))) [seed_user]
           (Flask.MkRequest []) seed_user).
  - intros v w [Hv|[]] [Hw|[]] _. rewrite <- Hv, <- Hw. reflexivity.
  - discriminate.
  - vm_compute. reflexivity.
Defined.

(** X7.  A key that [validate_api_key] accepts for some identifier is a key
    for which [user_for_api_key] returns a user, one whose key hash is the
    digest of that key. *)
Theorem validate_then_lookup
    (user_id : option Z) (api_key : option str) (env : Env) :
  snd (validate_api_key user_id api_key env) = Ok true ->
  exists key v,
    api_key = Some (Utf8 key)
    /\ snd (user_for_api_key api_key env) = Ok (Some v)
    /\ Model.api_key v = Some (Hashlib.hexdigest (Bytes.encode_utf8 key)).
Proof.
  intros Htrue.
  destruct (validate_api_key_cases user_id api_key env)
    as [[_ Hrun] | [(uid & s & msg & _ & _ & _ & Hrun)
                   | (uid & key & -> & -> & Huid & Hkey & Hcases)]].
  { rewrite Hrun in Htrue. discriminate Htrue. }
  { rewrite Hrun in Htrue. discriminate Htrue. }
  destruct Hcases as [[_ Hrun] | (rows & u & Hstore & Hfind & Hrec)].
  { rewrite Hrun in Htrue. discriminate Htrue. }
  destruct Hrec as [(h & Hh & _ & Hrun) | [_ [msg Hrun]]].
  2:{ rewrite Hrun in Htrue. discriminate Htrue. }
  rewrite Hrun in Htrue. cbn [snd] in Htrue.
  apply Ok_inj in Htrue. apply String.eqb_eq in Htrue. subst h.
  destruct (find_in_true _ _ _ Hfind) as [Hin _].
  destruct env as [st req]. cbn [store] in Hstore. subst st.
  rewrite (user_for_api_key_connected key rows req Hkey). cbn [snd].
  destruct (find_first (Model.has_key_hash (key_digest key)) rows)
    as [(before & x & after & _ & Hx & _ & Hfx) | [Hall Hfx]].
  - exists key, x. rewrite Hfx.
    apply has_key_hash_true in Hx. auto.
  - exfalso. rewrite Forall_forall in Hall. specialize (Hall u Hin).
    apply has_key_hash_false in Hall. contradiction.
Qed.

Lemma validate_then_lookup_witness :
  exists key v,
    Some (Utf8 (api_key seed_pair)) = Some (Utf8 key)
    /\ snd (user_for_api_key (Some (Utf8 (api_key seed_pair))) (seed_env [])) = Ok (Some v)
    /\ Model.api_key v = Some (Hashlib.hexdigest (Bytes.encode_utf8 key)).
Proof.
  apply (validate_then_lookup (Some 1) (Some (Utf8 (api_key seed_pair))) (seed_env [])).
  vm_compute. reflexivity.
Defined.

(* ------------------------------------------------------------------ *)
(** ** Further properties of the guard *)

Lemma get_some_contains (name value : string) (hs : Flask.Headers) :
  Flask.get name hs = Some value -> Flask.contains name hs = true.
Proof. unfold Flask.contains. intros H. rewrite H. reflexivity. Qed.

Lemma key_step_present (env : Env) (k : string) :
  Flask.get "x-api-key" (Flask.headers (request env)) = Some k ->
  key_step env = user_for_api_key (Some (Utf8 k)) env.
Proof.
  intros Hget. unfold key_step.
  rewrite (get_some_contains _ _ _ Hget), Hget. reflexivity.
Qed.

Lemma jwt_trace_unfold (hs : Flask.Headers) :
  jwt_trace hs
  = if Flask.contains "Authorization" hs
    then [JwtTried (Flask.get "Authorization" hs)] else [].
Proof. reflexivity. Qed.

(** X8.  A request that carries, under [x-api-key], a key returned by
    [generate_api_key], on a store that answers and holds the key's hash for
    one user: the guard computes one digest, asks the store once, by that
    hash, then calls the view once with this user and returns what the view
    returns.  The user's identifier plays no part: a user stored under [0]
    is served as well. *)
Theorem guard_serves_generated_key
    (Args Resp : Type) (f : Args -> Model.User -> M Resp) (args : Args)
    (urandom : nat -> byte) (rows : list Model.User) (hs : Flask.Headers)
    (u : Model.User) :
  let pair := generate_api_key urandom in
  let env := MkEnv (Model.Connected rows) (Flask.MkRequest hs) in
  Flask.get "x-api-key" hs = Some (api_key pair) ->
  In u rows ->
  Model.api_key u = Some (hashed_key pair) ->
  (forall v, In v rows -> Model.api_key v = Some (hashed_key pair) -> v = u) ->
  requires_auth f args env
  = ((if Flask.contains "Authorization" hs
      then [JwtTried (Flask.get "Authorization" hs)] else [])
     ++ [Hashed (Bytes.encode_utf8 (api_key pair));
         QueryFilterBy (hashed_key pair);
         ViewCalled u (fst (f args u env))],
     snd (f args u env)).
Proof.
  cbv zeta. intros Hget Hin Hhash Huniq.
  unfold requires_auth. rewrite decorated_function_run. cbv zeta.
  rewrite (key_step_present (MkEnv (Model.Connected rows) (Flask.MkRequest hs)) _ Hget).
  rewrite (user_for_api_key_connected _ rows _ (generated_key_nonempty urandom)).
  assert (Hfind : find (Model.has_key_hash
                          (key_digest (api_key (generate_api_key urandom)))) rows
                  = Some u).
  { apply find_unique; auto.
    - apply has_key_hash_true. exact Hhash.
    - intros v Hv Hp. apply has_key_hash_true in Hp. auto. }
  rewrite Hfind. rewrite jwt_trace_unfold. reflexivity.
Qed.

Lemma guard_serves_generated_key_witness :
  let zero := Model.MkUser 0 "Matt" (Some (hashed_key seed_pair)) in
  let env := MkEnv (Model.Connected [zero])
                   (Flask.MkRequest [("x-api-key", api_key seed_pair)]) in
  requires_auth user_view tt env
  = ([Hashed (Bytes.encode_utf8 (api_key seed_pair));
      QueryFilterBy (hashed_key seed_pair);
      ViewCalled zero [Printed "Matt"]],
     Ok 0).
Proof.
  cbv zeta.
  apply (guard_serves_generated_key unit Z user_view tt zeros
           [Model.MkUser 0 "Matt" (Some (hashed_key seed_pair))]
           [("x-api-key", api_key seed_pair)]
           (Model.MkUser 0 "Matt" (Some (hashed_key seed_pair)))).
  - reflexivity.
  - left. reflexivity.
  - reflexivity.
  - intros v [Hv|[]] _. symmetry. exact Hv.
Defined.

(** X9.  A request with a non-empty [x-api-key] that no user of the store
    holds the digest of: the guard computes the digest, asks the store once
    and raises the [AuthError] with the fixed message and status 401, the
    very error it raises for a request without any header; the view is not
    called. *)
Theorem guard_refuses_unknown_key
    (Args Resp : Type) (f : Args -> Model.User -> M Resp) (args : Args)
    (rows : list Model.User) (hs : Flask.Headers) (k : string) :
  let env := MkEnv (Model.Connected rows) (Flask.MkRequest hs) in
  let digest := Hashlib.hexdigest (Bytes.encode_utf8 k) in
  Flask.get "x-api-key" hs = Some k ->
  k <> "" ->
  Forall (fun v => Model.api_key v <> Some digest) rows ->
  requires_auth f args env
  = ((if Flask.contains "Authorization" hs
      then [JwtTried (Flask.get "Authorization" hs)] else [])
     ++ [Hashed (Bytes.encode_utf8 k); QueryFilterBy digest],
     Raise (ExcAuthError
              {| message := "Authorization is required to access this resource";
                 status_code := 401 |}))
  /\ snd (requires_auth f args env)
     = snd (requires_auth f args (MkEnv (Model.Connected rows) (Flask.MkRequest []))).
Proof.
  cbv zeta. intros Hget Hk Hnone.
  unfold requires_auth. rewrite !decorated_function_run. cbv zeta.
  rewrite (key_step_present (MkEnv (Model.Connected rows) (Flask.MkRequest hs)) _ Hget).
  rewrite (user_for_api_key_connected k rows _ Hk).
  assert (Hfind : find (Model.has_key_hash (key_digest k)) rows = None).
  { apply find_none_forall. eapply Forall_impl; [|exact Hnone].
    intros v Hv. apply has_key_hash_false. exact Hv. }
  rewrite Hfind. rewrite jwt_trace_unfold. split; reflexivity.
Qed.

Lemma guard_refuses_unknown_key_witness :
  snd (requires_auth user_view tt (seed_env [("x-api-key", "not the key")]))
  = snd (requires_auth user_view tt (seed_env [])).
Proof.
  refine (proj2 (guard_refuses_unknown_key unit Z user_view tt [seed_user]
                   [("x-api-key", "not the key")] "not the key" _ _ _)).
  - reflexivity.
  - discriminate.
  - repeat constructor. intros H. vm_compute in H. discriminate H.
Defined.

(** X10.  A request with a non-empty [x-api-key] on a store whose lookup
    raises: the guard has no handler, the error of the store leaves it in
    place of an [AuthError], and the view is not called. *)
Theorem guard_passes_store_error
    (Args Resp : Type) (f : Args -> Model.User -> M Resp) (args : Args)
    (error : string) (hs : Flask.Headers) (k : string) :
  Flask.get "x-api-key" hs = Some k ->
  k <> "" ->
  requires_auth f args (MkEnv (Model.Faulty error) (Flask.MkRequest hs))
  = ((if Flask.contains "Authorization" hs
      then [JwtTried (Flask.get "Authorization" hs)] else [])
     ++ [Hashed (Bytes.encode_utf8 k);
         QueryFilterBy (Hashlib.hexdigest (Bytes.encode_utf8 k))],
     Raise (StoreError error)).
Proof.
  intros Hget Hk.
  unfold requires_auth. rewrite decorated_function_run. cbv zeta.
  rewrite (key_step_present (MkEnv (Model.Faulty error) (Flask.MkRequest hs)) _ Hget).
  rewrite (user_for_api_key_faulty k error _ Hk).
  rewrite jwt_trace_unfold. reflexivity.
Qed.

Lemma guard_passes_store_error_witness :
  requires_auth user_view tt (down_env [("Authorization", "Bearer t"); ("x-api-key", "k")])
  = ([JwtTried (Some "Bearer t"); Hashed (Bytes.encode_utf8 "k");
      QueryFilterBy (Hashlib.hexdigest (Bytes.encode_utf8 "k"))],
     Raise (StoreError "connection refused")).
Proof.
  apply (guard_passes_store_error unit Z user_view tt "connection refused"
           [("Authorization", "Bearer t"); ("x-api-key", "k")] "k").
  - reflexivity.
  - discriminate.
Defined.

(** X11.  Every call of the view that the guard makes is for a user of the
    store whose key hash is the SHA-256 hexadecimal digest of the non-empty
    value the request carries under [x-api-key]. *)
Theorem guard_calls_view_for_key_holder_only
    (Args Resp : Type) (f : Args -> Model.User -> M Resp) (args : Args) (env : Env)
    (u : Model.User) (body : list event) :
  In (u, body) (view_calls (fst (requires_auth f args env))) ->
  exists rows k,
    store env = Model.Connected rows
    /\ Flask.get "x-api-key" (Flask.headers (request env)) = Some k
    /\ k <> ""
    /\ In u rows
    /\ Model.api_key u = Some (Hashlib.hexdigest (Bytes.encode_utf8 k))
    /\ body = fst (f args u env).
Proof.
  unfold requires_auth. rewrite decorated_function_run. cbv zeta.
  pose proof (key_step_is_lookup env) as Hlookup.
  destruct (jwt_trace_events (Flask.headers (request env))) as [_ Hj].
  destruct (key_step_trace env) as [_ Hk].
  destruct (key_step env) as [tk [[w|]|e]]; cbn [fst snd] in *;
    rewrite !view_calls_app, Hj, Hk; cbn [app view_calls In];
    try contradiction.
  intros [Hpair|[]].
  assert (Hw : w = u) by (apply (f_equal fst) in Hpair; exact Hpair).
  assert (Hb : fst (f args w env) = body) by (apply (f_equal snd) in Hpair; exact Hpair).
  subst w.
  symmetry in Hlookup.
  destruct (user_for_api_key_some _ _ _ Hlookup) as (k & rows & Hget & Hne & Hstore & Hfind).
  assert (Hheader : Flask.get "x-api-key" (Flask.headers (request env)) = Some k).
  { destruct (Flask.get "x-api-key" (Flask.headers (request env))) as [k'|];
      [|discriminate Hget].
    cbn [option_map] in Hget. injection Hget as ->. reflexivity. }
  clear Hget. rename Hheader into Hget.
  destruct (find_in_true _ _ _ Hfind) as [Hin Hhash].
  apply has_key_hash_true in Hhash.
  exists rows, k.
  refine (conj Hstore (conj Hget (conj Hne (conj Hin (conj Hhash (eq_sym Hb)))))).
Qed.

Lemma guard_calls_view_for_key_holder_only_witness :
  exists rows k,
    store (seed_env [("x-api-key", api_key seed_pair)]) = Model.Connected rows
    /\ Flask.get "x-api-key" [("x-api-key", api_key seed_pair)] = Some k
    /\ k <> ""
    /\ In seed_user rows
    /\ Model.api_key seed_user = Some (Hashlib.hexdigest (Bytes.encode_utf8 k))
    /\ [Printed "Matt"]
       = fst (user_view tt seed_user (seed_env [("x-api-key", api_key seed_pair)])).
Proof.
  apply (guard_calls_view_for_key_holder_only unit Z user_view tt
           (seed_env [("x-api-key", api_key seed_pair)]) seed_user [Printed "Matt"]).
  vm_compute. left. reflexivity.
Defined.

(* ------------------------------------------------------------------ *)
(** ** Further properties of [generate_api_key] *)

Lemma unhex_pair (b : byte) :
  Bytes.of_Z (16 * unhexdigit (Bytes.hexdigit (Z.shiftr (Bytes.to_Z b) 4))
              + unhexdigit (Bytes.hexdigit (Z.land (Bytes.to_Z b) 15)))
  = b.
Proof. destruct b; reflexivity. Qed.

Lemma unhex_hex (bs : list byte) : unhex (Bytes.hex bs) = bs.
Proof.
  induction bs as [|b bs IH]; [reflexivity|].
  change (Bytes.hex (b :: bs))
    with (String (Bytes.hexdigit (Z.shiftr (Bytes.to_Z b) 4))
            (String (Bytes.hexdigit (Z.land (Bytes.to_Z b) 15)) (Bytes.hex bs))).
  cbn [unhex]. rewrite unhex_pair, IH. reflexivity.
Qed.

Lemma hex_inj (bs bs' : list byte) : Bytes.hex bs = Bytes.hex bs' -> bs = bs'.
Proof.
  intros H. rewrite <- (unhex_hex bs), <- (unhex_hex bs'), H. reflexivity.
Qed.

(** X12.  Two calls of [generate_api_key] return the same key exactly when
    the 32 bytes of randomness they draw are the same, and then they return
    the same pair: the hexadecimal form loses nothing of the randomness, and
    nothing beyond the 32 bytes enters the key. *)
Theorem generate_api_key_keeps_randomness (urandom urandom' : nat -> byte) :
  (api_key (generate_api_key urandom) = api_key (generate_api_key urandom')
   <-> forall i, (i < 32)%nat -> urandom i = urandom' i)
  /\ (api_key (generate_api_key urandom) = api_key (generate_api_key urandom')
      -> generate_api_key urandom = generate_api_key urandom').
Proof.
  unfold generate_api_key; cbn [api_key]. unfold Secrets.token_hex, Secrets.token_bytes.
  split; [split|].
  - intros H i Hi. apply hex_inj in H.
    apply (ext_in_map H). apply in_seq. lia.
  - intros H. f_equal. apply map_ext_in.
    intros i Hi. apply in_seq in Hi. apply H. lia.
  - intros H. rewrite H. reflexivity.
Qed.

Lemma generate_api_key_keeps_randomness_witness :
  api_key (generate_api_key zeros) = api_key (generate_api_key (zeros_but 40 xff)).
Proof.
  apply (proj2 (proj1 (generate_api_key_keeps_randomness zeros (zeros_but 40 xff)))).
  intros i Hi. unfold zeros, zeros_but.
  destruct (Nat.eqb_spec 40 i) as [Heq|Hneq]; [lia | reflexivity].
Defined.

Example one_byte_changes_the_key :
  api_key (generate_api_key zeros) <> api_key (generate_api_key (zeros_but 31 x01)).
Proof. intros H. vm_compute in H. discriminate H. Qed.

(* ------------------------------------------------------------------ *)
(** ** Failures of the store and of [encode] in the two checks *)

(** X13.  For a non-zero [user_id] and a non-empty key that has a UTF-8
    encoding, [validate_api_key] on a store whose lookup raises prints
    "User fetching failed." and returns [False], and its run is the very run
    it has on a store that answers and holds no user under [user_id]: the
    handler of the [try] block makes a lookup error look like an unknown
    user. *)
Theorem validate_api_key_swallows_lookup_failure
    (uid : Z) (key : string) (error : string) (rows : list Model.User)
    (req : Flask.Request) :
  uid <> 0 -> key <> "" ->
  Forall (fun u => Model.id u <> uid) rows ->
  validate_api_key (Some uid) (Some (Utf8 key)) (MkEnv (Model.Faulty error) req)
  = ([Hashed (Bytes.encode_utf8 key); QueryGet uid; Printed "User fetching failed."],
     Ok false)
  /\ validate_api_key (Some uid) (Some (Utf8 key)) (MkEnv (Model.Connected rows) req)
     = validate_api_key (Some uid) (Some (Utf8 key)) (MkEnv (Model.Faulty error) req).
Proof.
  intros Huid Hkey Habsent.
  rewrite (validate_api_key_faulty uid key error req Huid Hkey).
  split; [reflexivity|].
  apply validate_api_key_unknown; try assumption.
  apply find_none_forall. eapply Forall_impl; [|exact Habsent].
  intros u Hu. unfold Model.has_id. apply Z.eqb_neq. exact Hu.
Qed.

Lemma validate_api_key_swallows_lookup_failure_witness :
  validate_api_key (Some 7) (Some (Utf8 "k")) (seed_env [])
  = validate_api_key (Some 7) (Some (Utf8 "k")) (down_env []).
Proof.
  refine (proj2 (validate_api_key_swallows_lookup_failure 7 "k" "connection refused"
                   [seed_user] (Flask.MkRequest []) _ _ _)).
  - discriminate.
  - discriminate.
  - repeat constructor. discriminate.
Defined.

(** X14.  [user_for_api_key] raises in two cases only.  For a key that
    holds a surrogate it raises the [UnicodeEncodeError] of [encode], before
    any digest or query.  For a non-empty key that has a UTF-8 encoding, on
    a store whose lookup raises, it raises the error of the store, after
    the digest and the query: nothing in it handles a failed lookup. *)
Theorem user_for_api_key_failures
    (api_key : option str) (env : Env) (e : exn) :
  snd (user_for_api_key api_key env) = Raise e ->
  (exists s msg,
      api_key = Some (Surrogated s) /\ e = UnicodeEncodeError msg
      /\ fst (user_for_api_key api_key env) = [])
  \/ (exists key error,
        api_key = Some (Utf8 key) /\ key <> ""
        /\ store env = Model.Faulty error /\ e = StoreError error
        /\ fst (user_for_api_key api_key env)
           = [Hashed (Bytes.encode_utf8 key);
              QueryFilterBy (Hashlib.hexdigest (Bytes.encode_utf8 key))]).
Proof.
  intros Hraise.
  destruct (user_for_api_key_runs api_key env)
    as [[_ H] | [(s & msg & -> & H) | (k & r & -> & Hk & _)]].
  - rewrite H in Hraise. discriminate Hraise.
  - left. rewrite H in Hraise |- *. cbn [fst snd] in *.
    injection Hraise as <-. exists s, msg. repeat split.
  - right. destruct env as [[rows|error] req].
    + rewrite (user_for_api_key_connected k rows req Hk) in Hraise.
      discriminate Hraise.
    + rewrite (user_for_api_key_faulty k error req Hk) in Hraise |- *.
      cbn [fst snd] in *. injection Hraise as <-.
      exists k, error. repeat split. exact Hk.
Qed.

Lemma user_for_api_key_failures_witness :
  exists key error,
    Some (Utf8 "k") = Some (Utf8 key) /\ key <> ""
    /\ store (down_env []) = Model.Faulty error
    /\ StoreError "connection refused" = StoreError error
    /\ fst (user_for_api_key (Some (Utf8 "k")) (down_env []))
       = [Hashed (Bytes.encode_utf8 key);
          QueryFilterBy (Hashlib.hexdigest (Bytes.encode_utf8 key))].
Proof.
  destruct (user_for_api_key_failures (Some (Utf8 "k")) (down_env [])
              (StoreError "connection refused") eq_refl)
    as [(s & msg & Hs & _) | H].
  - discriminate Hs.
  - exact H.
Defined.

Example surrogate_key_is_refused_by_encode :
  validate_api_key (Some 1) (Some lone_surrogate) (seed_env [])
  = ([], Raise (UnicodeEncodeError "'utf-8' codec can't encode: surrogates not allowed"))
  /\ validate_api_key (Some 0) (Some lone_surrogate) (seed_env []) = ([], Ok false).
Proof. split; reflexivity. Qed.
